(** * MQTT_LINGDONGKAIGUAN: a shallow embedding of the ESP32-C2 MQTT switch

    The sketch [MQTT_LINGDONGKAIGUAN.ino] is a single-threaded Arduino
    program.  Its global variables, the two [Preferences] namespaces, the
    WiFiManager association, the GPIO levels, the millisecond clock and the
    MQTT client are gathered in one [Device] record; every C++ function of
    the sketch becomes a computation in a small state monad whose results
    are either a returned value or a halt ([ESP.restart],
    [esp_deep_sleep_start]: calls that never return).

    Conventions of the embedding:
    - [char] buffers and Arduino [String]s are [string]s; [snprintf]
      truncates as the code does, while [strcpy] is the copy of a source
      that fits its destination: statements about values copied from the
      store or from the portal carry the capacity of the destination as a
      hypothesis ([fits]);
    - a GPIO is named by the [int] that [atoi] gives for its pin string,
      and an input level changes only between operations, where the
      environment presents it;
    - [Serial] output is debugging text and is left out;
    - a [preferences.begin(ns, ..) ... preferences.end()] bracket becomes
      the namespace argument of the operations it encloses;
    - [delay] advances the device clock; every externally visible action
      is appended to a time-stamped trace. *)

From Stdlib Require Import ZArith String Ascii Bool List Lia.
From stdpp Require Import gmap strings list.
Import ListNotations.

Local Open Scope string_scope.
Local Open Scope Z_scope.

(** ** C library helpers *)

Module CLib.

(** [isspace] in the C locale. *)
Definition is_space (c : ascii) : bool :=
  match nat_of_ascii c with
  | 32%nat | 9%nat | 10%nat | 11%nat | 12%nat | 13%nat => true
  | _ => false
  end.

Definition digit_val (c : ascii) : option Z :=
  let n := Z.of_nat (nat_of_ascii c) in
  if (48 <=? n) && (n <=? 57) then Some (n - 48) else None.

Fixpoint skip_spaces (s : string) : string :=
  match s with
  | String c r => if is_space c then skip_spaces r else s
  | EmptyString => s
  end.

Fixpoint atoi_digits (acc : Z) (s : string) : Z :=
  match s with
  | String c r =>
      match digit_val c with
      | Some d => atoi_digits (acc * 10 + d) r
      | None => acc
      end
  | EmptyString => acc
  end.

(** [atoi]: leading white space, an optional sign, then decimal digits
    (the pin strings of the sketch hold at most two characters, so the
    [int] range is never left). *)
Definition atoi (s : string) : Z :=
  match skip_spaces s with
  | String "-"%char r => - atoi_digits 0 r
  | String "+"%char r => atoi_digits 0 r
  | r => atoi_digits 0 r
  end.

(** [snprintf(buf, n, ...)] keeps at most [n - 1] characters. *)
Definition snprintf (n : nat) (formatted : string) : string :=
  String.substring 0 (n - 1) formatted.

(** The C string held by a byte buffer that is NUL-terminated after its
    last byte: the bytes before the first NUL. *)
Fixpoint c_str (bytes : list ascii) : string :=
  match bytes with
  | [] => EmptyString
  | c :: r => if Ascii.eqb c zero then EmptyString else String c (c_str r)
  end.

(** [strcmp(a, b) == 0] on C strings. *)
Definition strcmp_eq (a b : string) : bool := String.eqb a b.

End CLib.
Export CLib.

(** ** Constants of the sketch *)

Definition FIRMWARE_VERSION : string := "1.0.0".
Definition VERSION_KEY : string := "fw_version".
Definition DEFAULT_BUTTON_PIN : Z := 9.
Definition DEFAULT_LED_PIN : Z := 8.
Definition DEFAULT_POWER_PIN : Z := 7.
Definition RESET_HOLD_TIME : Z := 5000.

Abbreviation HIGH := true (only parsing).
Abbreviation LOW := false (only parsing).

(** [unsigned long] on the ESP32-C2 is 32 bits wide. *)
Definition ULONG_MOD : Z := 2 ^ 32.
Definition to_ulong (z : Z) : Z := z mod ULONG_MOD.

(** ** Data model *)

(** The eight configuration globals ([mqtt_server] ... [power_pin]). *)
Record Config := mkConfig {
  mqtt_server : string;
  mqtt_port : string;
  mqtt_user : string;
  mqtt_password : string;
  mqtt_topic : string;
  button_pin : string;
  led_pin : string;
  power_pin : string
}.

(** The initialisers of the globals. *)
Definition default_config : Config :=
  mkConfig "" "1883" "" "" "esp32" "9" "8" "7".

Inductive Namespace := iot_config | system_flags.

Inductive PinMode := OUTPUT | INPUT_PULLUP.

Inductive Event :=
| EvPinMode (pin : Z) (m : PinMode)
| EvWrite (pin : Z) (v : bool)
| EvDelay (ms : Z)
| EvConnect (client_id user pass : string) (ok : bool)
| EvSubscribe (topic : string)
| EvPublish (topic msg : string)
| EvWifiReset
| EvRestart
| EvDeepSleep.

Record Device := mkDevice {
  (* globals of the sketch *)
  cfg : Config;
  firstMessageSent : bool;
  shouldSaveConfig : bool;
  buttonPressTime : Z;
  longPressActive : bool;
  (* non-volatile storage: the two Preferences namespaces, and the
     network association kept by WiFiManager *)
  nvs_iot_config : gmap string string;
  nvs_system_flags : gmap string string;
  wifi_saved : bool;
  (* hardware and environment *)
  pins : Z -> bool;
  clock : Z;
  connected : bool;
  handshake : nat -> bool;      (* outcome of the n-th MQTT handshake *)
  attempts : nat;               (* handshakes made so far *)
  trace : list (Z * Event)
}.

Definition set_cfg (c : Config) (s : Device) : Device :=
  mkDevice c (firstMessageSent s) (shouldSaveConfig s) (buttonPressTime s)
    (longPressActive s) (nvs_iot_config s) (nvs_system_flags s) (wifi_saved s)
    (pins s) (clock s) (connected s) (handshake s) (attempts s) (trace s).

Definition set_firstMessageSent (b : bool) (s : Device) : Device :=
  mkDevice (cfg s) b (shouldSaveConfig s) (buttonPressTime s)
    (longPressActive s) (nvs_iot_config s) (nvs_system_flags s) (wifi_saved s)
    (pins s) (clock s) (connected s) (handshake s) (attempts s) (trace s).

Definition set_shouldSaveConfig (b : bool) (s : Device) : Device :=
  mkDevice (cfg s) (firstMessageSent s) b (buttonPressTime s)
    (longPressActive s) (nvs_iot_config s) (nvs_system_flags s) (wifi_saved s)
    (pins s) (clock s) (connected s) (handshake s) (attempts s) (trace s).

Definition set_buttonPressTime (t : Z) (s : Device) : Device :=
  mkDevice (cfg s) (firstMessageSent s) (shouldSaveConfig s) t
    (longPressActive s) (nvs_iot_config s) (nvs_system_flags s) (wifi_saved s)
    (pins s) (clock s) (connected s) (handshake s) (attempts s) (trace s).

Definition set_longPressActive (b : bool) (s : Device) : Device :=
  mkDevice (cfg s) (firstMessageSent s) (shouldSaveConfig s) (buttonPressTime s)
    b (nvs_iot_config s) (nvs_system_flags s) (wifi_saved s)
    (pins s) (clock s) (connected s) (handshake s) (attempts s) (trace s).

Definition set_nvs (ns : Namespace) (m : gmap string string) (s : Device) : Device :=
  match ns with
  | iot_config =>
      mkDevice (cfg s) (firstMessageSent s) (shouldSaveConfig s) (buttonPressTime s)
        (longPressActive s) m (nvs_system_flags s) (wifi_saved s)
        (pins s) (clock s) (connected s) (handshake s) (attempts s) (trace s)
  | system_flags =>
      mkDevice (cfg s) (firstMessageSent s) (shouldSaveConfig s) (buttonPressTime s)
        (longPressActive s) (nvs_iot_config s) m (wifi_saved s)
        (pins s) (clock s) (connected s) (handshake s) (attempts s) (trace s)
  end.

Definition get_nvs (ns : Namespace) (s : Device) : gmap string string :=
  match ns with
  | iot_config => nvs_iot_config s
  | system_flags => nvs_system_flags s
  end.

Definition set_wifi_saved (b : bool) (s : Device) : Device :=
  mkDevice (cfg s) (firstMessageSent s) (shouldSaveConfig s) (buttonPressTime s)
    (longPressActive s) (nvs_iot_config s) (nvs_system_flags s) b
    (pins s) (clock s) (connected s) (handshake s) (attempts s) (trace s).

Definition set_pins (p : Z -> bool) (s : Device) : Device :=
  mkDevice (cfg s) (firstMessageSent s) (shouldSaveConfig s) (buttonPressTime s)
    (longPressActive s) (nvs_iot_config s) (nvs_system_flags s) (wifi_saved s)
    p (clock s) (connected s) (handshake s) (attempts s) (trace s).

Definition set_clock (t : Z) (s : Device) : Device :=
  mkDevice (cfg s) (firstMessageSent s) (shouldSaveConfig s) (buttonPressTime s)
    (longPressActive s) (nvs_iot_config s) (nvs_system_flags s) (wifi_saved s)
    (pins s) t (connected s) (handshake s) (attempts s) (trace s).

Definition set_connected (b : bool) (s : Device) : Device :=
  mkDevice (cfg s) (firstMessageSent s) (shouldSaveConfig s) (buttonPressTime s)
    (longPressActive s) (nvs_iot_config s) (nvs_system_flags s) (wifi_saved s)
    (pins s) (clock s) b (handshake s) (attempts s) (trace s).

Definition set_attempts (n : nat) (s : Device) : Device :=
  mkDevice (cfg s) (firstMessageSent s) (shouldSaveConfig s) (buttonPressTime s)
    (longPressActive s) (nvs_iot_config s) (nvs_system_flags s) (wifi_saved s)
    (pins s) (clock s) (connected s) (handshake s) n (trace s).

Definition set_trace (t : list (Z * Event)) (s : Device) : Device :=
  mkDevice (cfg s) (firstMessageSent s) (shouldSaveConfig s) (buttonPressTime s)
    (longPressActive s) (nvs_iot_config s) (nvs_system_flags s) (wifi_saved s)
    (pins s) (clock s) (connected s) (handshake s) (attempts s) t.

(** ** The monad of the sketch: state, plus calls that never return *)

Inductive HaltKind := Restarted | DeepSleep.

Inductive Outcome (A : Type) :=
| Ret (a : A)
| Halt (h : HaltKind).
Arguments Ret {A} a.
Arguments Halt {A} h.

Definition M (A : Type) : Type := Device -> Outcome A * Device.

Definition ret {A} (a : A) : M A := fun s => (Ret a, s).

Definition bind {A B} (m : M A) (k : A -> M B) : M B :=
  fun s =>
    match m s with
    | (Ret a, s') => k a s'
    | (Halt h, s') => (Halt h, s')
    end.

Definition halt {A} (h : HaltKind) : M A := fun s => (Halt h, s).
Definition gets {A} (f : Device -> A) : M A := fun s => (Ret (f s), s).
Definition modify (f : Device -> Device) : M unit := fun s => (Ret tt, f s).

Declare Scope sketch_scope.
Delimit Scope sketch_scope with sketch.
Notation "x <- m ;; k" := (bind m (fun x => k))
  (at level 100, m at next level, right associativity) : sketch_scope.
Notation "m ;; k" := (bind m (fun _ => k))
  (at level 100, right associativity) : sketch_scope.
Local Open Scope sketch_scope.

Definition when (b : bool) (m : M unit) : M unit := if b then m else ret tt.

(** [for (int i = 0; i < n; i++) body] for a body that ignores [i]. *)
Fixpoint repeat_n (n : nat) (body : M unit) : M unit :=
  match n with
  | O => ret tt
  | S k => body ;; repeat_n k body
  end.

(** ** Arduino primitives *)

Definition emit (e : Event) : M unit :=
  modify (fun s => set_trace (trace s ++ [(clock s, e)]) s).

Definition millis : M Z := gets (fun s => to_ulong (clock s)).

Definition delay (ms : Z) : M unit :=
  emit (EvDelay ms) ;; modify (fun s => set_clock (clock s + ms) s).

(** The GPIO calls take the [int] the sketch passes ([atoi] of a pin
    string); for a pin string that fits its [char [3]] buffer this is the
    [uint8_t] the core receives. *)
Definition pinMode (pin : Z) (m : PinMode) : M unit := emit (EvPinMode pin m).

(** The level on the pin: the one last written, or the one the environment
    last presented. *)
Definition digitalRead (pin : Z) : M bool := gets (fun s => pins s pin).

Definition digitalWrite (pin : Z) (v : bool) : M unit :=
  emit (EvWrite pin v) ;;
  modify (fun s => set_pins (fun q => if Z.eqb q pin then v else pins s q) s).

(** [Preferences]: [getString(key, def)], [putString(key, v)], [clear()]
    on the namespace opened by the enclosing [begin]. *)
Definition getString (ns : Namespace) (key def : string) : M string :=
  gets (fun s => default def (get_nvs ns s !! key)).

Definition putString (ns : Namespace) (key v : string) : M unit :=
  modify (fun s => set_nvs ns (<[key := v]> (get_nvs ns s)) s).

Definition clear (ns : Namespace) : M unit := modify (set_nvs ns ∅).

(** [wifiManager.resetSettings()]: the stored association is forgotten. *)
Definition wifi_resetSettings : M unit :=
  emit EvWifiReset ;; modify (set_wifi_saved false).

Definition ESP_restart {A} : M A := fun s =>
  (Halt Restarted, set_trace (trace s ++ [(clock s, EvRestart)]) s).

Definition esp_deep_sleep_start {A} : M A := fun s =>
  (Halt DeepSleep, set_trace (trace s ++ [(clock s, EvDeepSleep)]) s).

(** [PubSubClient]. *)
Definition client_connected : M bool := gets connected.

Definition client_connect (id user pass : string) : M bool :=
  fun s =>
    let ok := handshake s (attempts s) in
    (Ret ok,
     set_trace (trace s ++ [(clock s, EvConnect id user pass ok)])
       (set_connected ok (set_attempts (S (attempts s)) s))).

Definition client_subscribe (topic : string) : M unit := emit (EvSubscribe topic).
Definition client_publish (topic msg : string) : M unit := emit (EvPublish topic msg).

(** Access to the configuration globals. *)
Definition get_cfg {A} (f : Config -> A) : M A := gets (fun s => f (cfg s)).
Definition upd_cfg (f : Config -> Config) : M unit :=
  modify (fun s => set_cfg (f (cfg s)) s).

Definition with_server (v : string) (c : Config) : Config :=
  mkConfig v (mqtt_port c) (mqtt_user c) (mqtt_password c) (mqtt_topic c)
    (button_pin c) (led_pin c) (power_pin c).
Definition with_port (v : string) (c : Config) : Config :=
  mkConfig (mqtt_server c) v (mqtt_user c) (mqtt_password c) (mqtt_topic c)
    (button_pin c) (led_pin c) (power_pin c).
Definition with_user (v : string) (c : Config) : Config :=
  mkConfig (mqtt_server c) (mqtt_port c) v (mqtt_password c) (mqtt_topic c)
    (button_pin c) (led_pin c) (power_pin c).
Definition with_password (v : string) (c : Config) : Config :=
  mkConfig (mqtt_server c) (mqtt_port c) (mqtt_user c) v (mqtt_topic c)
    (button_pin c) (led_pin c) (power_pin c).
Definition with_topic (v : string) (c : Config) : Config :=
  mkConfig (mqtt_server c) (mqtt_port c) (mqtt_user c) (mqtt_password c) v
    (button_pin c) (led_pin c) (power_pin c).
Definition with_button_pin (v : string) (c : Config) : Config :=
  mkConfig (mqtt_server c) (mqtt_port c) (mqtt_user c) (mqtt_password c)
    (mqtt_topic c) v (led_pin c) (power_pin c).
Definition with_led_pin (v : string) (c : Config) : Config :=
  mkConfig (mqtt_server c) (mqtt_port c) (mqtt_user c) (mqtt_password c)
    (mqtt_topic c) (button_pin c) v (power_pin c).
Definition with_power_pin (v : string) (c : Config) : Config :=
  mkConfig (mqtt_server c) (mqtt_port c) (mqtt_user c) (mqtt_password c)
    (mqtt_topic c) (button_pin c) (led_pin c) v.

(** [strcpy(dst, src)] into one of the configuration buffers, for a
    source that fits the buffer (see [fits]). *)
Definition strcpy (dst : string -> Config -> Config) (src : string) : M unit :=
  upd_cfg (dst src).

(** ** The functions of the sketch *)

(** [setupPowerPin] (lines 78-91). *)
Definition setupPowerPin : M unit :=
  savedPowerPin <- getString iot_config "power_pin" "" ;;
  when (negb (String.eqb savedPowerPin ""))
       (strcpy with_power_pin savedPowerPin) ;;
  p <- get_cfg power_pin ;;
  pinMode (atoi p) OUTPUT ;;
  p <- get_cfg power_pin ;;
  digitalWrite (atoi p) HIGH.

(** [saveConfigCallback] (lines 97-100). *)
Definition saveConfigCallback : M unit := modify (set_shouldSaveConfig true).

(** [clearAllData] (lines 106-134). *)
Definition clearAllData : M unit :=
  repeat_n 5
    (l <- get_cfg led_pin ;; digitalWrite (atoi l) HIGH ;;
     delay 100 ;;
     l <- get_cfg led_pin ;; digitalWrite (atoi l) LOW ;;
     delay 100) ;;
  clear iot_config ;;
  clear system_flags ;;
  wifi_resetSettings ;;
  delay 1000 ;;
  ESP_restart.

(** [checkFirmwareVersion] (lines 140-181). *)
Definition checkFirmwareVersion : M unit :=
  savedVersion <- getString system_flags VERSION_KEY "" ;;
  when (negb (String.eqb savedVersion FIRMWARE_VERSION))
    (clear iot_config ;;
     wifi_resetSettings ;;
     putString system_flags VERSION_KEY FIRMWARE_VERSION ;;
     pinMode DEFAULT_LED_PIN OUTPUT ;;
     repeat_n 10
       (digitalWrite DEFAULT_LED_PIN HIGH ;;
        delay 100 ;;
        digitalWrite DEFAULT_LED_PIN LOW ;;
        delay 100)).

(** The double quote character of the JSON text. *)
Definition dq : string := String "034"%char EmptyString.

(** The text printed by the format ["{\"status\":\"%s\"}"]. *)
Definition status_format (status : string) : string :=
  "{" +:+ dq +:+ "status" +:+ dq +:+ ":" +:+ dq +:+ status +:+ dq +:+ "}".

(** [publishData] (lines 225-244). *)
Definition publishData (status : string) : M unit :=
  c <- client_connected ;;
  when c
    (let message := snprintf 50 (status_format status) in
     topic <- get_cfg mqtt_topic ;;
     client_publish topic message ;;
     sent <- gets firstMessageSent ;;
     bp <- get_cfg button_pin ;;
     level <- digitalRead (atoi bp) ;;
     when (negb sent && strcmp_eq status "system_startup" && Bool.eqb level HIGH)
       (modify (set_firstMessageSent true) ;;
        delay 500 ;;
        p <- get_cfg power_pin ;;
        digitalWrite (atoi p) LOW ;;
        delay 100)).

(** [callback] (lines 191-218); [payload] is the byte array with its
    length, [message] the NUL-terminated copy the handler compares. *)
Definition callback (topic : string) (payload : list ascii) : M unit :=
  let message := c_str payload in
  if strcmp_eq message "clear_all_data" then clearAllData
  else if strcmp_eq message "on" then
    p <- get_cfg power_pin ;;
    digitalWrite (atoi p) HIGH ;;
    publishData "on"
  else if strcmp_eq message "off" then
    p <- get_cfg power_pin ;;
    digitalWrite (atoi p) LOW ;;
    publishData "off"
  else ret tt.

(** The configuration load of [setup] (lines 261-284). *)
Definition load_config : M unit :=
  savedServer <- getString iot_config "server" "" ;;
  when (negb (String.eqb savedServer ""))
    (strcpy with_server savedServer ;;
     v <- getString iot_config "port" "1883" ;; strcpy with_port v ;;
     v <- getString iot_config "user" "" ;; strcpy with_user v ;;
     v <- getString iot_config "password" "" ;; strcpy with_password v ;;
     v <- getString iot_config "topic" "esp32c2" ;; strcpy with_topic v) ;;
  savedLedPin <- getString iot_config "led_pin" "" ;;
  when (negb (String.eqb savedLedPin "")) (strcpy with_led_pin savedLedPin) ;;
  savedbuttonPin <- getString iot_config "button_pin" "" ;;
  when (negb (String.eqb savedbuttonPin "")) (strcpy with_button_pin savedbuttonPin).

(** The configuration save of [setup] (lines 349-358). *)
Definition save_config : M unit :=
  v <- get_cfg mqtt_server ;; putString iot_config "server" v ;;
  v <- get_cfg mqtt_port ;; putString iot_config "port" v ;;
  v <- get_cfg mqtt_user ;; putString iot_config "user" v ;;
  v <- get_cfg mqtt_password ;; putString iot_config "password" v ;;
  v <- get_cfg mqtt_topic ;; putString iot_config "topic" v ;;
  v <- get_cfg button_pin ;; putString iot_config "button_pin" v ;;
  v <- get_cfg led_pin ;; putString iot_config "led_pin" v ;;
  v <- get_cfg power_pin ;; putString iot_config "power_pin" v.

(** [connectMQTT] (lines 408-435).  The [while] loop is unrolled on a
    fuel argument; [connectMQTT_fuel] below shows that four tests of the
    loop condition always suffice. *)
Fixpoint connectMQTT_loop (fuel : nat) (retry : Z) : M bool :=
  match fuel with
  | O => ret false
  | S fuel' =>
      c <- client_connected ;;
      if negb c && (retry <? 3) then
        user <- get_cfg mqtt_user ;;
        pass <- get_cfg mqtt_password ;;
        ok <- client_connect "ESP32C2_Client" user pass ;;
        if ok then
          topic <- get_cfg mqtt_topic ;;
          client_subscribe (snprintf 50 (topic +:+ "/control")) ;;
          ret true
        else
          delay 2000 ;;
          connectMQTT_loop fuel' (retry + 1)
      else ret false
  end.

Definition connectMQTT : M bool := connectMQTT_loop 4 0.

(** [reconnectMQTT] (lines 441-446). *)
Definition reconnectMQTT : M unit :=
  ok <- connectMQTT ;;
  when ok (publishData "reconnected").

(** [resetConfig] (lines 479-495). *)
Definition resetConfig : M unit :=
  repeat_n 10
    (l <- get_cfg led_pin ;;
     v <- digitalRead (atoi l) ;;
     digitalWrite (atoi l) (negb v) ;;
     delay 100) ;;
  wifi_resetSettings ;;
  ESP_restart.

(** [checkResetButton] (lines 452-473); the subtraction is on
    [unsigned long]. *)
Definition checkResetButton : M unit :=
  bp <- get_cfg button_pin ;;
  level <- digitalRead (atoi bp) ;;
  if Bool.eqb level LOW then
    t <- gets buttonPressTime ;;
    if t =? 0 then
      now <- millis ;;
      modify (set_buttonPressTime now)
    else
      active <- gets longPressActive ;;
      now <- millis ;;
      when (negb active && (RESET_HOLD_TIME <? to_ulong (now - t)))
        (modify (set_longPressActive true) ;;
         resetConfig)
  else
    modify (set_buttonPressTime 0) ;;
    modify (set_longPressActive false).

(** [client.loop()]: while connected, one pending inbound message (if
    any) is handed to the registered callback. *)
Definition client_loop (inbound : option (string * list ascii)) : M unit :=
  c <- client_connected ;;
  match inbound with
  | Some (topic, payload) => when c (callback topic payload)
  | None => ret tt
  end.

(** [loop] (lines 390-401). *)
Definition loop (inbound : option (string * list ascii)) : M unit :=
  checkResetButton ;;
  c <- client_connected ;;
  when (negb c) reconnectMQTT ;;
  client_loop inbound ;;
  delay 100.

(** The end of [setup] (lines 371-383). *)
Definition setup_announce : M unit :=
  ok <- connectMQTT ;;
  when ok
    (publishData "system_startup" ;;
     delay 500 ;;
     sent <- gets firstMessageSent ;;
     bp <- get_cfg button_pin ;;
     level <- digitalRead (atoi bp) ;;
     when (sent && Bool.eqb level HIGH)
       (delay 500 ;;
        esp_deep_sleep_start)).

(** ** Running the model *)

Definition exec {A} (m : M A) (s : Device) : Device := snd (m s).
Definition result {A} (m : M A) (s : Device) : Outcome A := fst (m s).

(** A device as the reset vector finds it: globals at their initialisers,
    non-volatile state and environment as given. *)
Definition power_on (iot sys : gmap string string) (wifi : bool)
    (levels : Z -> bool) (hs : nat -> bool) : Device :=
  mkDevice default_config false false 0 false iot sys wifi levels 0 false hs 0 [].

(** What a restart keeps: the two namespaces and the network association. *)
Definition persisted (s : Device) : gmap string string * gmap string string * bool :=
  (nvs_iot_config s, nvs_system_flags s, wifi_saved s).

(** ** Notions used in the statements *)

(** The GPIO numbers the sketch derives from its configuration. *)
Definition button_gpio (s : Device) : Z := atoi (button_pin (cfg s)).

Definition power_gpio (s : Device) : Z := atoi (power_pin (cfg s)).

(** The condition under which [publishData] switches the power output
    off (line 236), together with the connection guard around it. *)
Definition startup_poweroff_fires (status : string) (s : Device) : bool :=
  connected s && negb (firstMessageSent s) &&
  strcmp_eq status "system_startup" && Bool.eqb (pins s (button_gpio s)) HIGH.

(** The effect of a switch command: the power output is written, then
    the status is handed to the publish operation, which sends it while
    the client is connected. *)
Definition switched (level : bool) (s s' : Device) : Prop :=
  pins s' (power_gpio s) = level /\
  (forall q, q <> power_gpio s -> pins s' q = pins s q) /\
  trace s' =
    (trace s ++ (clock s, EvWrite (power_gpio s) level) ::
       (if connected s
        then [(clock s, EvPublish (mqtt_topic (cfg s))
                          (status_format (if level then "on" else "off")))]
        else []))%list /\
  persisted s' = persisted s.

(** The operations that can run within one boot, and what the
    environment can do in between. *)
Inductive Op :=
| OpSetupPowerPin
| OpCheckFirmwareVersion
| OpLoadConfig
| OpSaveConfig
| OpAnnounce
| OpPublish (status : string)
| OpCallback (topic : string) (payload : list ascii)
| OpConnect
| OpReconnect
| OpCheckResetButton
| OpLoop (inbound : option (string * list ascii))
| EnvPin (pin : Z) (level : bool)    (* an input level changes *)
| EnvDisconnect                      (* the broker connection is lost *)
| EnvTick (ms : Z).                  (* time passes *)

Definition run_op (op : Op) : M unit :=
  match op with
  | OpSetupPowerPin => setupPowerPin
  | OpCheckFirmwareVersion => checkFirmwareVersion
  | OpLoadConfig => load_config
  | OpSaveConfig => save_config
  | OpAnnounce => setup_announce
  | OpPublish status => publishData status
  | OpCallback topic payload => callback topic payload
  | OpConnect => _ <- connectMQTT ;; ret tt
  | OpReconnect => reconnectMQTT
  | OpCheckResetButton => checkResetButton
  | OpLoop inbound => loop inbound
  | EnvPin pin level =>
      modify (fun s => set_pins (fun q => if Z.eqb q pin then level else pins s q) s)
  | EnvDisconnect => modify (set_connected false)
  | EnvTick ms => modify (fun s => set_clock (clock s + Z.max 0 ms) s)
  end.

Fixpoint run_ops (ops : list Op) : M unit :=
  match ops with
  | [] => ret tt
  | op :: rest => run_op op ;; run_ops rest
  end.

(** How many operations of a run see the first-message latch go from
    clear to set. *)
Fixpoint latch_rises (ops : list Op) (s : Device) : nat :=
  match ops with
  | [] => 0%nat
  | op :: rest =>
      let s' := exec (run_op op) s in
      ((if negb (firstMessageSent s) && firstMessageSent s' then 1 else 0) +
       match result (run_op op) s with
       | Ret _ => latch_rises rest s'
       | Halt _ => 0
       end)%nat
  end.

(** An invariant kept by a computation, whether it returns or halts. *)
Definition keeps {A} (P : Device -> Prop) (m : M A) : Prop :=
  forall s, P s -> P (exec m s).

Definition latch_set (s : Device) : Prop := firstMessageSent s = true.

(** The number of failed handshakes of one [connectMQTT] call: the
    handshakes before the first success among the next three. *)
Definition failed_handshakes (s : Device) : nat :=
  let a := attempts s in
  if handshake s a then 0%nat
  else if handshake s (S a) then 1%nat
  else if handshake s (S (S a)) then 2%nat
  else 3%nat.

(** The trace of [n] failed handshakes from instant [t] on, each followed
    by the two-second wait. *)
Fixpoint failed_trace (n : nat) (user pass : string) (t : Z) : list (Z * Event) :=
  match n with
  | O => []
  | S k =>
      (t, EvConnect "ESP32C2_Client" user pass false) :: (t, EvDelay 2000) ::
      failed_trace k user pass (t + 2000)
  end.

(** The device after one failed handshake and its two-second wait, and
    after a successful handshake and the subscription. *)
Definition after_failure (s : Device) : Device :=
  set_clock (clock s + 2000)
    (set_trace
       (trace s ++ [(clock s, EvConnect "ESP32C2_Client" (mqtt_user (cfg s))
                                (mqtt_password (cfg s)) false);
                    (clock s, EvDelay 2000)])
       (set_connected false (set_attempts (S (attempts s)) s))).

Definition after_success (s : Device) : Device :=
  set_trace
    (trace s ++ [(clock s, EvConnect "ESP32C2_Client" (mqtt_user (cfg s))
                             (mqtt_password (cfg s)) true);
                 (clock s, EvSubscribe
                             (snprintf 50 (mqtt_topic (cfg s) +:+ "/control")))])
    (set_connected true (set_attempts (S (attempts s)) s)).

(** The configuration globals are [char] arrays (lines 49-58): a string
    fits an array of [cap] bytes when it leaves room for the final NUL. *)
Definition fits (cap : nat) (v : string) : bool :=
  Nat.ltb (String.length v) cap.

(** All eight globals within [char [40]], [char [6]] and [char [3]]. *)
Definition config_fits (c : Config) : bool :=
  fits 40 (mqtt_server c) && fits 6 (mqtt_port c) && fits 40 (mqtt_user c) &&
  fits 40 (mqtt_password c) && fits 40 (mqtt_topic c) &&
  fits 3 (button_pin c) && fits 3 (led_pin c) && fits 3 (power_pin c).

(** The value stored under [key], if any, fits [cap] bytes. *)
Definition stored_fits (s : Device) (key : string) (cap : nat) : bool :=
  match nvs_iot_config s !! key with
  | Some v => fits cap v
  | None => true
  end.

(** Every value the load of [setup] can copy fits the global it is copied
    into. *)
Definition store_fits (s : Device) : bool :=
  stored_fits s "server" 40 && stored_fits s "port" 6 &&
  stored_fits s "user" 40 && stored_fits s "password" 40 &&
  stored_fits s "topic" 40 &&
  stored_fits s "led_pin" 3 && stored_fits s "button_pin" 3.

(** The value a configuration key holds for the loader: a stored empty
    string reads like an absent key. *)
Definition stored_nonempty (s : Device) (key : string) : option string :=
  match nvs_iot_config s !! key with
  | Some v => if String.eqb v "" then None else Some v
  | None => None
  end.

(** The configuration the load of [setup] leaves in memory. *)
Definition loaded (s : Device) : Config :=
  let iot := nvs_iot_config s in
  let c1 :=
    match stored_nonempty s "server" with
    | Some v =>
        with_topic (default "esp32c2" (iot !! "topic"))
          (with_password (default "" (iot !! "password"))
             (with_user (default "" (iot !! "user"))
                (with_port (default "1883" (iot !! "port"))
                   (with_server v (cfg s)))))
    | None => cfg s
    end in
  let c2 :=
    match stored_nonempty s "led_pin" with
    | Some v => with_led_pin v c1
    | None => c1
    end in
  match stored_nonempty s "button_pin" with
  | Some v => with_button_pin v c2
  | None => c2
  end.

(** The store written by a save of configuration [c]. *)
Definition holds_config (iot : gmap string string) (c : Config) : Prop :=
  iot !! "server" = Some (mqtt_server c) /\
  iot !! "port" = Some (mqtt_port c) /\
  iot !! "user" = Some (mqtt_user c) /\
  iot !! "password" = Some (mqtt_password c) /\
  iot !! "topic" = Some (mqtt_topic c) /\
  iot !! "button_pin" = Some (button_pin c) /\
  iot !! "led_pin" = Some (led_pin c) /\
  iot !! "power_pin" = Some (power_pin c).

(** One sample of the steady-state loop: the environment presents a
    button level at an instant, then [checkResetButton] runs. *)
Record Sample := mkSample { level : bool; at_ms : Z }.

Definition present (smp : Sample) (s : Device) : Device :=
  set_clock (at_ms smp)
    (set_pins (fun q => if Z.eqb q (button_gpio s) then level smp else pins s q) s).

Definition sample (smp : Sample) : M unit :=
  modify (present smp) ;; checkResetButton.

Fixpoint run_samples (l : list Sample) : M unit :=
  match l with
  | [] => ret tt
  | smp :: rest => sample smp ;; run_samples rest
  end.

(** A button held from instant [t0] on and sampled again at [ts]. *)
Definition held (t0 : Z) (ts : list Z) : list Sample :=
  map (mkSample LOW) (t0 :: ts).

(** The time a press has lasted at instant [t], as the sketch computes it
    from the recorded [millis] value of the first sample at [t0]. *)
Definition elapsed (t0 t : Z) : Z := to_ulong (to_ulong t - to_ulong t0).

(** No press session: no timestamp, latch clear. *)
Definition idle (s : Device) : Prop :=
  buttonPressTime s = 0 /\ longPressActive s = false.

(** Nothing but the press session, the clock and the pin levels differ. *)
Definition quiet (s s' : Device) : Prop :=
  cfg s' = cfg s /\ persisted s' = persisted s /\ trace s' = trace s.

(** The number of reset effects a trace records. *)
Definition is_wifi_reset (e : Z * Event) : bool :=
  match snd e with EvWifiReset => true | _ => false end.

Definition resets (tr : list (Z * Event)) : nat :=
  List.length (List.filter is_wifi_reset tr).

(** ** Sample devices *)

(** A device upgraded from firmware 0.9.0, and one already on 1.0.0. *)
Definition upgraded_device : Device :=
  power_on {[ "server" := "broker.lan"; "topic" := "switch1" ]}
           {[ VERSION_KEY := "0.9.0" ]} true (fun _ => HIGH) (fun _ => true).

Definition current_device : Device :=
  power_on {[ "server" := "broker.lan"; "topic" := "switch1" ]}
           {[ VERSION_KEY := FIRMWARE_VERSION ]} true (fun _ => HIGH) (fun _ => true).

(** A provisioned device that has lost its connection, power output on. *)
Definition offline_device : Device :=
  power_on {[ "server" := "broker.lan" ]} {[ VERSION_KEY := FIRMWARE_VERSION ]}
    true (fun _ => HIGH) (fun _ => false).

(** A freshly connected device with the button released, then held. *)
Definition online_device (button : bool) : Device :=
  set_connected true
    (power_on {[ "server" := "broker.lan" ]} {[ VERSION_KEY := FIRMWARE_VERSION ]}
       true (fun q => if Z.eqb q 9 then button else HIGH) (fun _ => true)).

(** A connected device whose power output is off. *)
Definition switched_off_device : Device :=
  set_pins (fun q => if Z.eqb q 7 then LOW else HIGH) (online_device HIGH).

(** A device that has announced itself (latch set, power output off) and
    was then switched on again by the remote command. *)
Definition latched_device : Device :=
  exec (callback "esp32/control" (list_ascii_of_string "on"))
    (exec (publishData "system_startup") (online_device HIGH)).

(** A device whose broker refuses the first handshake and accepts the
    second, and one whose broker is unreachable. *)
Definition flaky_broker_device : Device :=
  power_on {[ "server" := "broker.lan" ]} {[ VERSION_KEY := FIRMWARE_VERSION ]}
    true (fun _ => HIGH) (fun n => Nat.eqb n 1).

Definition dead_broker_device : Device :=
  power_on {[ "server" := "broker.lan" ]} {[ VERSION_KEY := FIRMWARE_VERSION ]}
    true (fun _ => HIGH) (fun _ => false).

(** A device holding only a custom port, as a partial configuration. *)
Definition port_only_device : Device :=
  power_on {[ "port" := "8883" ]} {[ VERSION_KEY := FIRMWARE_VERSION ]}
    true (fun _ => HIGH) (fun _ => true).

(** A device whose operator changed the port and left the server empty. *)
Definition custom_port_device : Device :=
  set_cfg (with_port "8883" default_config)
    (power_on ∅ {[ VERSION_KEY := FIRMWARE_VERSION ]}
       true (fun _ => HIGH) (fun _ => true)).

(** A device whose operator filled in the whole form. *)
Definition provisioned_device : Device :=
  set_cfg (mkConfig "mqtt.example.com" "1883" "" "" "switch1" "9" "8" "7")
    (power_on ∅ {[ VERSION_KEY := FIRMWARE_VERSION ]}
       true (fun _ => HIGH) (fun _ => true)).

(** ** Further parts of the sketch *)

Definition led_gpio (s : Device) : Z := atoi (led_pin (cfg s)).

(** Reading back the portal parameters in [setup] (lines 337-344);
    [values] holds what the eight [getValue()] calls return. *)
Definition setup_read_params (values : Config) : M unit :=
  strcpy with_server (mqtt_server values) ;;
  strcpy with_port (mqtt_port values) ;;
  strcpy with_user (mqtt_user values) ;;
  strcpy with_password (mqtt_password values) ;;
  strcpy with_topic (mqtt_topic values) ;;
  strcpy with_button_pin (button_pin values) ;;
  strcpy with_led_pin (led_pin values) ;;
  strcpy with_power_pin (power_pin values).

(** The pin re-initialisation after a save (lines 362-366). *)
Definition reinit_pins : M unit :=
  bp <- get_cfg button_pin ;;
  pinMode (atoi bp) INPUT_PULLUP ;;
  l <- get_cfg led_pin ;;
  pinMode (atoi l) OUTPUT ;;
  p <- get_cfg power_pin ;;
  pinMode (atoi p) OUTPUT ;;
  l <- get_cfg led_pin ;;
  digitalWrite (atoi l) LOW ;;
  p <- get_cfg power_pin ;;
  digitalWrite (atoi p) HIGH.

(** The save block of [setup] (lines 347-367). *)
Definition setup_save : M unit :=
  should <- gets shouldSaveConfig ;;
  when should (save_config ;; reinit_pins).

(** The store a save leaves, as a function of the store it finds. *)
Definition saved_store (c : Config) (m : gmap string string) : gmap string string :=
  <["power_pin" := power_pin c]>
    (<["led_pin" := led_pin c]>
       (<["button_pin" := button_pin c]>
          (<["topic" := mqtt_topic c]>
             (<["password" := mqtt_password c]>
                (<["user" := mqtt_user c]>
                   (<["port" := mqtt_port c]>
                      (<["server" := mqtt_server c]> m))))))).

(** The start of [setup] up to the configuration load (lines 255-284). *)
Definition setup_boot : M unit :=
  setupPowerPin ;; checkFirmwareVersion ;; load_config.

(** One turn of the toggling loop of [resetConfig]. *)
Definition toggle_led : M unit :=
  l <- get_cfg led_pin ;;
  v <- digitalRead (atoi l) ;;
  digitalWrite (atoi l) (negb v) ;;
  delay 100.

(** The environment presents a level on the button input. *)
Definition present_button (level : bool) : M unit :=
  modify (fun s =>
    set_pins (fun q => if Z.eqb q (button_gpio s) then level else pins s q) s).

(** The sleep decision at the end of [setup] (lines 378-382). *)
Definition announce_decide : M unit :=
  sent <- gets firstMessageSent ;;
  bp <- get_cfg button_pin ;;
  level <- digitalRead (atoi bp) ;;
  when (sent && Bool.eqb level HIGH)
    (delay 500 ;;
     esp_deep_sleep_start).

(** What [setup] does after a successful connect (lines 373-382), with the
    button input as the environment presents it at the two reads: [b1]
    when [publishData] reads it (line 236), [b2] when the sleep decision
    reads it (line 378), 1100 ms later at the latest. *)
Definition announce_tail_sampled (b1 b2 : bool) : M unit :=
  present_button b1 ;;
  publishData "system_startup" ;;
  delay 500 ;;
  present_button b2 ;;
  announce_decide.

(** The end of [setup] (lines 371-383) under these two button levels. *)
Definition setup_announce_sampled (b1 b2 : bool) : M unit :=
  ok <- connectMQTT ;;
  when ok (announce_tail_sampled b1 b2).

(** What the version check does on a mismatch (lines 150-177). *)
Definition migration : M unit :=
  clear iot_config ;;
  wifi_resetSettings ;;
  putString system_flags VERSION_KEY FIRMWARE_VERSION ;;
  pinMode DEFAULT_LED_PIN OUTPUT ;;
  repeat_n 10
    (digitalWrite DEFAULT_LED_PIN HIGH ;;
     delay 100 ;;
     digitalWrite DEFAULT_LED_PIN LOW ;;
     delay 100).

(** The events of [n] on/off blinks of 100 ms each on [pin], the first
    one starting at time [t]. *)
Fixpoint blink_trace (n : nat) (pin t : Z) : list (Z * Event) :=
  match n with
  | O => []
  | S n =>
      (t, EvWrite pin HIGH) :: (t, EvDelay 100) ::
      (t + 100, EvWrite pin LOW) :: (t + 100, EvDelay 100) ::
      blink_trace n pin (t + 200)
  end.

(** The events of [n] toggles of [pin], 100 ms apart, from level [v] at
    time [t]: each writes the opposite of the level before it. *)
Fixpoint toggle_trace (n : nat) (pin : Z) (v : bool) (t : Z) : list (Z * Event) :=
  match n with
  | O => []
  | S n =>
      (t, EvWrite pin (negb v)) :: (t, EvDelay 100) ::
      toggle_trace n pin (negb v) (t + 100)
  end.

(** The device a [connectMQTT] call leaves behind when it starts
    disconnected. *)
Definition after_connect (s : Device) : Device :=
  let a := attempts s in
  if handshake s a then after_success s
  else if handshake s (S a) then after_success (after_failure s)
  else if handshake s (S (S a)) then
    after_success (after_failure (after_failure s))
  else after_failure (after_failure (after_failure s)).

(** The messages a trace records as published, oldest first. *)
Definition published (tr : list (Z * Event)) : list (string * string) :=
  flat_map (fun e => match snd e with
                     | EvPublish topic msg => [(topic, msg)]
                     | _ => []
                     end) tr.

(** A computation that, when it does not return, has restarted the device
    with the network association forgotten. *)
Definition halts_forgetting {A} (m : M A) : Prop :=
  forall s h, result m s = Halt h ->
    h = Restarted /\ wifi_saved (exec m s) = false.

(** An invariant kept by every run of a computation that returns. *)
Definition keeps_on_return {A} (P : Device -> Prop) (m : M A) : Prop :=
  forall s a, P s -> result m s = Ret a -> P (exec m s).

(** The configuration globals and the persisted state are what they were
    in [s0]. *)
Definition settled (s0 s : Device) : Prop :=
  cfg s = cfg s0 /\ persisted s = persisted s0.

(** The eight keys a save writes. *)
Definition config_keys : list string :=
  ["server"; "port"; "user"; "password"; "topic";
   "button_pin"; "led_pin"; "power_pin"].

(** A device upgraded from firmware 0.9.0 that had its power output moved
    to GPIO 5. *)
Definition moved_power_device : Device :=
  power_on {[ "server" := "broker.lan"; "power_pin" := "5" ]}
           {[ VERSION_KEY := "0.9.0" ]} true (fun _ => LOW) (fun _ => true).

(** A connected device in the steady state: button released. *)
Definition steady_device : Device :=
  set_firstMessageSent true (online_device HIGH).

(** A device whose operator has just submitted the portal form. *)
Definition submitted_device : Device :=
  set_shouldSaveConfig true provisioned_device.

(** ** Reasoning about sketch computations *)

Section MonadLaws.
Context {A B : Type}.

Lemma bind_ret_run (m : M A) (k : A -> M B) (s : Device) (a : A) :
  result m s = Ret a -> bind m k s = k a (exec m s).
Proof.
  unfold bind, result, exec. destruct (m s) as [[x|h] s']; simpl;
    intros E; inversion E; reflexivity.
Qed.

Lemma bind_halt_run (m : M A) (k : A -> M B) (s : Device) (h : HaltKind) :
  result m s = Halt h -> bind m k s = (Halt h, exec m s).
Proof.
  unfold bind, result, exec. destruct (m s) as [[x|h'] s']; simpl;
    intros E; inversion E; reflexivity.
Qed.
End MonadLaws.

Lemma bind_ret_result {A B} (m : M A) (k : A -> M B) (s : Device) (a : A) :
  result m s = Ret a -> result (bind m k) s = result (k a) (exec m s).
Proof. intros H. unfold result. now rewrite (bind_ret_run m k s a H). Qed.

Lemma bind_ret_exec {A B} (m : M A) (k : A -> M B) (s : Device) (a : A) :
  result m s = Ret a -> exec (bind m k) s = exec (k a) (exec m s).
Proof. intros H. unfold exec. now rewrite (bind_ret_run m k s a H). Qed.

Lemma result_ext {A} (m m' : M A) (s s' : Device) :
  m s = m' s' -> result m s = result m' s'.
Proof. intros H. unfold result. now rewrite H. Qed.

Lemma exec_ext {A} (m m' : M A) (s s' : Device) :
  m s = m' s' -> exec m s = exec m' s'.
Proof. intros H. unfold exec. now rewrite H. Qed.

(** A loop whose body returns and keeps an invariant returns and keeps it. *)
Lemma repeat_n_preserves (P : Device -> Prop) (body : M unit) :
  (forall s, P s -> result body s = Ret tt /\ P (exec body s)) ->
  forall n s, P s ->
    result (repeat_n n body) s = Ret tt /\ P (exec (repeat_n n body) s).
Proof.
  intros Hbody n. induction n as [|n IH]; intros s Hs.
  - split; [reflexivity | exact Hs].
  - destruct (Hbody s Hs) as [Hr Hp].
    unfold result, exec. simpl. rewrite (bind_ret_run _ _ _ _ Hr).
    apply (IH _ Hp).
Qed.

Lemma bind_gets {A B} (f : Device -> A) (k : A -> M B) (s : Device) :
  bind (gets f) k s = k (f s) s.
Proof. reflexivity. Qed.

Lemma bind_ext {A B} (m : M A) (k1 k2 : A -> M B) (s : Device) :
  (forall a s', k1 a s' = k2 a s') -> bind m k1 s = bind m k2 s.
Proof.
  intros H. unfold bind. destruct (m s) as [[a|h] s']; [apply H | reflexivity].
Qed.

Lemma bind_modify {B} (f : Device -> Device) (k : unit -> M B) (s : Device) :
  bind (modify f) k s = k tt (f s).
Proof. reflexivity. Qed.

Ltac unfold_prims :=
  unfold when, strcpy, upd_cfg, get_cfg, getString, putString, clear,
    wifi_resetSettings, client_connected, client_subscribe, client_publish,
    client_connect, digitalWrite, digitalRead, pinMode, delay, millis, emit,
    ESP_restart, esp_deep_sleep_start, modify, gets, ret, halt, bind in *.

Ltac run_sketch := unfold result, exec in *; unfold_prims; simpl in *.

(** ** Version migration guard *)

Section VersionGuard.

Lemma checkFirmwareVersion_unchanged (s : Device) :
  nvs_system_flags s !! VERSION_KEY = Some FIRMWARE_VERSION ->
  result checkFirmwareVersion s = Ret tt /\ exec checkFirmwareVersion s = s.
Proof.
  intros H. unfold result, exec, checkFirmwareVersion, getString.
  rewrite bind_gets. cbn [get_nvs]. rewrite H. split; reflexivity.
Qed.

(** C1. On every boot the version check returns; when the version
    stored under the system-flags key differs from the compiled one (an
    absent key reads as the empty string, hence differs), it leaves the
    operational-config namespace empty, the network association
    forgotten and the stored version equal to the compiled one; when the
    stored version equals the compiled one it changes nothing at all. *)
Theorem checkFirmwareVersion_migrates (s : Device) :
  let s' := exec checkFirmwareVersion s in
  result checkFirmwareVersion s = Ret tt /\
  (nvs_system_flags s !! VERSION_KEY <> Some FIRMWARE_VERSION ->
     nvs_iot_config s' = ∅ /\
     wifi_saved s' = false /\
     nvs_system_flags s' !! VERSION_KEY = Some FIRMWARE_VERSION) /\
  (nvs_system_flags s !! VERSION_KEY = Some FIRMWARE_VERSION ->
     s' = s).
Proof.
  intros s'. subst s'. unfold checkFirmwareVersion, getString.
  unfold result, exec. rewrite bind_gets. cbn [get_nvs].
  destruct (String.eqb_spec (default "" (nvs_system_flags s !! VERSION_KEY))
              FIRMWARE_VERSION) as [E|E]; cbn [negb when].
  - split; [reflexivity|]. split; [|reflexivity].
    intros Hmis. exfalso. apply Hmis.
    destruct (nvs_system_flags s !! VERSION_KEY) as [v|]; simpl in E.
    + now rewrite E.
    + discriminate E.
  - split; [reflexivity|]. split.
    + intros _. split; [reflexivity|]. split; [reflexivity|].
      cbn. apply lookup_insert_eq.
    + intros Hsame. exfalso. apply E. now rewrite Hsame.
Qed.



Lemma checkFirmwareVersion_migrates_witness :
  (nvs_iot_config (exec checkFirmwareVersion upgraded_device) = ∅ /\
   wifi_saved (exec checkFirmwareVersion upgraded_device) = false /\
   nvs_system_flags (exec checkFirmwareVersion upgraded_device) !! VERSION_KEY
     = Some FIRMWARE_VERSION) /\
  exec checkFirmwareVersion current_device = current_device.
Proof.
  split.
  - apply (checkFirmwareVersion_migrates upgraded_device).
    vm_compute. discriminate.
  - apply (checkFirmwareVersion_migrates current_device).
    vm_compute. reflexivity.
Defined.

End VersionGuard.

(** ** Publishing *)

Section Publish.



Lemma publishData_disconnected (status : string) (s : Device) :
  connected s = false -> publishData status s = (Ret tt, s).
Proof.
  intros H. unfold publishData, client_connected.
  rewrite bind_gets, H. reflexivity.
Qed.

(** What a publish does to the state, by cases on the guard. *)
Lemma publishData_connected (status : string) (s : Device) :
  connected s = true ->
  publishData status s =
    let msg := (clock s, EvPublish (mqtt_topic (cfg s))
                           (snprintf 50 (status_format status))) in
    if startup_poweroff_fires status s then
      (Ret tt,
       set_clock (clock s + 500 + 100)
         (set_trace (trace s ++ [msg; (clock s, EvDelay 500);
                                 (clock s + 500, EvWrite (power_gpio s) LOW);
                                 (clock s + 500, EvDelay 100)])
            (set_pins (fun q => if Z.eqb q (power_gpio s) then LOW else pins s q)
               (set_firstMessageSent true s))))
    else (Ret tt, set_trace (trace s ++ [msg]) s).
Proof.
  intros H. unfold publishData, client_connected, startup_poweroff_fires.
  rewrite bind_gets, H. cbn [when andb].
  unfold button_gpio, power_gpio.
  destruct (negb (firstMessageSent s) && strcmp_eq status "system_startup"
            && Bool.eqb (pins s (atoi (button_pin (cfg s)))) HIGH) eqn:G.
  - run_sketch. rewrite G. simpl.
    repeat rewrite <- app_assoc. reflexivity.
  - run_sketch. rewrite G. reflexivity.
Qed.

(** A status other than "system_startup" is only ever sent. *)
Lemma publishData_plain (status : string) (s : Device) :
  strcmp_eq status "system_startup" = false ->
  publishData status s =
    (Ret tt,
     if connected s
     then set_trace (trace s ++ [(clock s, EvPublish (mqtt_topic (cfg s))
                                            (snprintf 50 (status_format status)))]) s
     else s).
Proof.
  intros Hst. destruct (connected s) eqn:Hc.
  - rewrite (publishData_connected _ _ Hc). cbv zeta.
    unfold startup_poweroff_fires. rewrite Hst, andb_false_r. reflexivity.
  - apply publishData_disconnected, Hc.
Qed.

(** C9. While the client is not connected a publish does nothing: it
    returns, and the device state (hence the trace of sent messages, the
    power output and the first-message latch) is what it was, also for
    the status text "system_startup". *)
Theorem publishData_disconnected_noop (status : string) (s : Device) :
  connected s = false ->
  result (publishData status) s = Ret tt /\
  exec (publishData status) s = s /\
  trace (exec (publishData status) s) = trace s /\
  pins (exec (publishData status) s) = pins s /\
  firstMessageSent (exec (publishData status) s) = firstMessageSent s.
Proof.
  intros H. unfold result, exec.
  rewrite (publishData_disconnected status s H). simpl. repeat split.
Qed.


Lemma publishData_disconnected_noop_witness :
  exec (publishData "system_startup") offline_device = offline_device /\
  pins (exec (publishData "system_startup") offline_device) 7 = HIGH.
Proof.
  destruct (publishData_disconnected_noop "system_startup" offline_device)
    as (_ & Hs & _ & Hp & _).
  - reflexivity.
  - split; [exact Hs|]. rewrite Hp. reflexivity.
Defined.

(** C2. A publish of "system_startup" while connected returns and sends
    the message at the current instant; if the button input reads HIGH
    (not held) and the startup power-off has not fired yet, the power
    output is written LOW exactly 500 ms after the message, and the
    latch is set; if the button input reads LOW (held), the pin levels,
    and so the power output, are left as they were. *)
Theorem publishData_startup_poweroff (s : Device) :
  connected s = true ->
  let s' := exec (publishData "system_startup") s in
  let sent := (clock s, EvPublish (mqtt_topic (cfg s))
                          (status_format "system_startup")) in
  result (publishData "system_startup") s = Ret tt /\
  (pins s (button_gpio s) = HIGH -> firstMessageSent s = false ->
     trace s' = (trace s ++ [sent; (clock s, EvDelay 500);
                             (clock s + 500, EvWrite (power_gpio s) LOW);
                             (clock s + 500, EvDelay 100)])%list /\
     pins s' (power_gpio s) = LOW /\
     firstMessageSent s' = true) /\
  (pins s (button_gpio s) = LOW ->
     trace s' = (trace s ++ [sent])%list /\
     pins s' = pins s /\
     firstMessageSent s' = firstMessageSent s).
Proof.
  intros Hc s' sent. subst s' sent. unfold result, exec.
  rewrite (publishData_connected _ s Hc). cbv zeta.
  unfold startup_poweroff_fires. rewrite Hc.
  change (strcmp_eq "system_startup" "system_startup") with true.
  change (snprintf 50 (status_format "system_startup"))
    with (status_format "system_startup").
  split; [|split].
  - destruct (_ && _); reflexivity.
  - intros Hb Hf. rewrite Hb, Hf. simpl.
    split; [reflexivity|]. split; [|reflexivity].
    now rewrite Z.eqb_refl.
  - intros Hb. rewrite Hb.
    replace (true && negb (firstMessageSent s) && true && Bool.eqb LOW HIGH)
      with false by (destruct (firstMessageSent s); reflexivity).
    simpl. repeat split.
Qed.


Lemma publishData_startup_poweroff_witness :
  pins (exec (publishData "system_startup") (online_device HIGH)) 7 = LOW /\
  pins (exec (publishData "system_startup") (online_device LOW))
    = pins (online_device LOW).
Proof.
  split.
  - apply (publishData_startup_poweroff (online_device HIGH)); reflexivity.
  - apply (publishData_startup_poweroff (online_device LOW)); reflexivity.
Defined.

End Publish.

(** ** Wipes: the remote command and the local reset *)

Section Wipes.

Lemma clearAllData_wipes (s : Device) :
  result clearAllData s = Halt Restarted /\
  nvs_iot_config (exec clearAllData s) = ∅ /\
  nvs_system_flags (exec clearAllData s) = ∅ /\
  wifi_saved (exec clearAllData s) = false.
Proof. repeat split. Qed.

Lemma resetConfig_forgets_wifi_only (s : Device) :
  result resetConfig s = Halt Restarted /\
  wifi_saved (exec resetConfig s) = false /\
  nvs_iot_config (exec resetConfig s) = nvs_iot_config s /\
  nvs_system_flags (exec resetConfig s) = nvs_system_flags s.
Proof. repeat split. Qed.

(** C7. Whatever the device state (connected or not, power output on or
    off), the remote command "clear_all_data" ends in a restart with
    both the operational-config and the system-flags namespace empty and
    the network association forgotten; the local long-press reset ends
    in a restart with the network association forgotten and both
    namespaces exactly as they were. *)
Theorem remote_wipe_and_local_reset (topic : string) (s : Device) :
  let wiped := exec (callback topic (list_ascii_of_string "clear_all_data")) s in
  let reset := exec resetConfig s in
  (result (callback topic (list_ascii_of_string "clear_all_data")) s
     = Halt Restarted /\
   nvs_iot_config wiped = ∅ /\
   nvs_system_flags wiped = ∅ /\
   wifi_saved wiped = false) /\
  (result resetConfig s = Halt Restarted /\
   wifi_saved reset = false /\
   nvs_iot_config reset = nvs_iot_config s /\
   nvs_system_flags reset = nvs_system_flags s).
Proof.
  cbv zeta. split.
  - change (callback topic (list_ascii_of_string "clear_all_data"))
      with clearAllData.
    apply clearAllData_wipes.
  - apply resetConfig_forgets_wifi_only.
Qed.

End Wipes.

(** ** Inbound commands *)

Section Commands.

Lemma c_str_nul_free (payload : list ascii) :
  ~ In zero payload -> c_str payload = string_of_list_ascii payload.
Proof.
  induction payload as [|c r IH]; intros Hnul; simpl.
  - reflexivity.
  - destruct (Ascii.eqb_spec c zero) as [E|E].
    + exfalso. apply Hnul. left. exact E.
    + f_equal. apply IH. intros Hin. apply Hnul. right. exact Hin.
Qed.

(** The handler reads its payload up to the first NUL byte only. *)
Lemma callback_reads_c_str (topic : string) (p q : list ascii) :
  c_str p = c_str q -> callback topic p = callback topic q.
Proof. intros E. unfold callback. rewrite E. reflexivity. Qed.

Lemma callback_other (topic : string) (payload : list ascii) (s : Device) :
  c_str payload <> "clear_all_data" ->
  c_str payload <> "on" ->
  c_str payload <> "off" ->
  callback topic payload s = (Ret tt, s).
Proof.
  intros H1 H2 H3. unfold callback, strcmp_eq.
  destruct (String.eqb_spec (c_str payload) "clear_all_data"); [contradiction|].
  destruct (String.eqb_spec (c_str payload) "on"); [contradiction|].
  destruct (String.eqb_spec (c_str payload) "off"); [contradiction|].
  reflexivity.
Qed.

Lemma callback_switch (topic : string) (payload : list ascii) (level : bool)
    (s : Device) :
  c_str payload = (if level then "on" else "off") ->
  let word := if level then "on" else "off" in
  result (callback topic payload) s = Ret tt /\
  exec (callback topic payload) s =
    set_trace
      (trace s ++ (clock s, EvWrite (power_gpio s) level) ::
         (if connected s
          then [(clock s, EvPublish (mqtt_topic (cfg s)) (status_format word))]
          else []))
      (set_pins (fun q => if Z.eqb q (power_gpio s) then level else pins s q) s).
Proof.
  intros E. cbv zeta. unfold callback. rewrite E.
  destruct level; cbn [strcmp_eq String.eqb Ascii.eqb Bool.eqb];
    unfold result, exec, power_gpio; run_sketch;
    rewrite publishData_plain by reflexivity; simpl;
    (split; [reflexivity|]);
    destruct (connected s); simpl; rewrite <- ?app_assoc; reflexivity.
Qed.


(** C6 (amended). For every inbound payload that holds no NUL byte, the
    handler dispatches on the payload text by case-sensitive exact
    match: "clear_all_data" runs the full wipe and restarts; "on" writes
    the power output HIGH and then publishes status "on"; "off" writes
    it LOW and then publishes status "off" (the publish operation sends
    while the client is connected); every other payload returns with
    the device state unchanged. *)
Theorem callback_dispatch (topic : string) (payload : list ascii) (s : Device) :
  ~ In zero payload ->
  let cmd := string_of_list_ascii payload in
  let s' := exec (callback topic payload) s in
  (cmd = "clear_all_data" ->
     result (callback topic payload) s = Halt Restarted /\
     nvs_iot_config s' = ∅ /\ nvs_system_flags s' = ∅ /\ wifi_saved s' = false) /\
  (cmd = "on" ->
     result (callback topic payload) s = Ret tt /\ switched HIGH s s') /\
  (cmd = "off" ->
     result (callback topic payload) s = Ret tt /\ switched LOW s s') /\
  (cmd <> "clear_all_data" -> cmd <> "on" -> cmd <> "off" ->
     result (callback topic payload) s = Ret tt /\ s' = s).
Proof.
  intros Hnul cmd s'. subst cmd s'.
  rewrite <- (c_str_nul_free payload Hnul).
  repeat split.
  - unfold callback. rewrite H. reflexivity.
  - unfold callback. rewrite H. reflexivity.
  - unfold callback. rewrite H. reflexivity.
  - unfold callback. rewrite H. reflexivity.
  - apply (callback_switch topic payload HIGH s H).
  - destruct (callback_switch topic payload HIGH s H) as [_ ->]. simpl.
    now rewrite Z.eqb_refl.
  - intros q Hq.
    destruct (callback_switch topic payload HIGH s H) as [_ ->]. simpl.
    now rewrite (proj2 (Z.eqb_neq q _) Hq).
  - destruct (callback_switch topic payload HIGH s H) as [_ ->]. reflexivity.
  - destruct (callback_switch topic payload HIGH s H) as [_ ->]. reflexivity.
  - apply (callback_switch topic payload LOW s H).
  - destruct (callback_switch topic payload LOW s H) as [_ ->]. simpl.
    now rewrite Z.eqb_refl.
  - intros q Hq.
    destruct (callback_switch topic payload LOW s H) as [_ ->]. simpl.
    now rewrite (proj2 (Z.eqb_neq q _) Hq).
  - destruct (callback_switch topic payload LOW s H) as [_ ->]. reflexivity.
  - destruct (callback_switch topic payload LOW s H) as [_ ->]. reflexivity.
  - unfold result. now rewrite callback_other.
  - unfold exec. now rewrite callback_other.
Qed.


Lemma callback_dispatch_witness :
  switched HIGH switched_off_device
    (exec (callback "esp32/control" (list_ascii_of_string "on"))
       switched_off_device) /\
  exec (callback "esp32/control" (list_ascii_of_string "ON"))
    switched_off_device = switched_off_device.
Proof.
  split.
  - apply (callback_dispatch "esp32/control" (list_ascii_of_string "on")
             switched_off_device).
    + vm_compute. intuition discriminate.
    + reflexivity.
  - apply (callback_dispatch "esp32/control" (list_ascii_of_string "ON")
             switched_off_device).
    + vm_compute. intuition discriminate.
    + vm_compute. discriminate.
    + vm_compute. discriminate.
    + vm_compute. discriminate.
Defined.

(** The payload of the three bytes 'o', 'n', NUL is none of the three
    commands, yet the handler switches the power output on. *)
Lemma callback_exact_match_counterexample :
  let payload := ["o"; "n"; zero]%char in
  payload <> list_ascii_of_string "clear_all_data" /\
  payload <> list_ascii_of_string "on" /\
  payload <> list_ascii_of_string "off" /\
  pins switched_off_device 7 = LOW /\
  pins (exec (callback "esp32/control" payload) switched_off_device) 7 = HIGH /\
  exec (callback "esp32/control" payload) switched_off_device
    <> switched_off_device.
Proof.
  cbv zeta. repeat split; try discriminate.
Qed.

End Commands.

(** ** The first-message latch *)

Section Keeps.
Context (P : Device -> Prop).

Lemma keeps_ret {A} (a : A) : keeps P (ret a).
Proof. intros s H. exact H. Qed.

Lemma keeps_gets {A} (f : Device -> A) : keeps P (gets f).
Proof. intros s H. exact H. Qed.

Lemma keeps_modify (f : Device -> Device) :
  (forall s, P s -> P (f s)) -> keeps P (modify f).
Proof. intros Hf s H. apply Hf, H. Qed.

Lemma keeps_bind {A B} (m : M A) (k : A -> M B) :
  keeps P m -> (forall a, keeps P (k a)) -> keeps P (bind m k).
Proof.
  intros Hm Hk s H. unfold exec, bind.
  specialize (Hm s H). unfold exec in Hm.
  destruct (m s) as [[a|h] s1]; simpl in *.
  - apply (Hk a s1 Hm).
  - exact Hm.
Qed.

Lemma keeps_when (b : bool) (m : M unit) : keeps P m -> keeps P (when b m).
Proof. intros Hm. destruct b; [exact Hm | apply keeps_ret]. Qed.

Lemma keeps_repeat_n (n : nat) (body : M unit) :
  keeps P body -> keeps P (repeat_n n body).
Proof.
  intros Hb. induction n as [|n IH]; simpl.
  - apply keeps_ret.
  - apply keeps_bind; [exact Hb | intros _; exact IH].
Qed.

End Keeps.

(** Breaks a computation into its primitive steps and closes those that
    leave the invariant's fields alone. *)
Ltac keeps_prims :=
  unfold strcpy, upd_cfg, get_cfg, getString, putString, clear,
    wifi_resetSettings, client_connected, client_subscribe, client_publish,
    digitalWrite, digitalRead, pinMode, delay, millis, emit.

Ltac keeps_step :=
  match goal with
  | |- keeps _ (bind _ _) => apply keeps_bind; [|intros ?]
  | |- keeps _ (ret _) => apply keeps_ret
  | |- keeps _ (gets _) => apply keeps_gets
  | |- keeps _ (when _ _) => apply keeps_when
  | |- keeps _ (repeat_n _ _) => apply keeps_repeat_n
  | |- keeps _ (modify _) => apply keeps_modify; intros ? ?; try assumption
  | |- keeps _ (if ?b then _ else _) => destruct b
  | |- keeps _ (let _ := _ in _) => cbv zeta
  | |- keeps _ (match ?x with Some _ => _ | None => _ end) => destruct x
  | |- keeps _ (match ?x with (_, _) => _ end) => destruct x
  end.

Ltac keeps_auto := keeps_prims; repeat keeps_step.

Lemma latch_client_connect (id user pass : string) :
  keeps latch_set (client_connect id user pass).
Proof. intros s H. exact H. Qed.

Lemma latch_ESP_restart {A} : keeps latch_set (@ESP_restart A).
Proof. intros s H. exact H. Qed.

Lemma latch_deep_sleep {A} : keeps latch_set (@esp_deep_sleep_start A).
Proof. intros s H. exact H. Qed.

Lemma latch_publishData (status : string) : keeps latch_set (publishData status).
Proof. unfold publishData. keeps_auto. reflexivity. Qed.

Lemma latch_connectMQTT_loop (fuel : nat) :
  forall retry, keeps latch_set (connectMQTT_loop fuel retry).
Proof.
  induction fuel as [|fuel IH]; intros retry; simpl.
  - apply keeps_ret.
  - keeps_auto.
    + apply latch_client_connect.
    + apply IH.
Qed.

Lemma latch_resetConfig : keeps latch_set resetConfig.
Proof. unfold resetConfig. keeps_auto. exact latch_ESP_restart. Qed.

Lemma latch_clearAllData : keeps latch_set clearAllData.
Proof. unfold clearAllData. keeps_auto. exact latch_ESP_restart. Qed.

Lemma latch_callback (topic : string) (payload : list ascii) :
  keeps latch_set (callback topic payload).
Proof.
  unfold callback. keeps_auto.
  - exact latch_clearAllData.
  - exact (latch_publishData "on").
  - exact (latch_publishData "off").
Qed.

Lemma latch_checkResetButton : keeps latch_set checkResetButton.
Proof. unfold checkResetButton. keeps_auto. exact latch_resetConfig. Qed.

Lemma latch_reconnectMQTT : keeps latch_set reconnectMQTT.
Proof.
  unfold reconnectMQTT, connectMQTT. keeps_auto.
  - apply latch_connectMQTT_loop.
  - exact (latch_publishData "reconnected").
Qed.

Lemma latch_run_op (op : Op) : keeps latch_set (run_op op).
Proof.
  destruct op; simpl.
  - unfold setupPowerPin. keeps_auto.
  - unfold checkFirmwareVersion. keeps_auto.
  - unfold load_config. keeps_auto.
  - unfold save_config. keeps_auto.
  - unfold setup_announce, connectMQTT. keeps_auto.
    + apply latch_connectMQTT_loop.
    + exact (latch_publishData "system_startup").
    + exact latch_deep_sleep.
  - apply latch_publishData.
  - apply latch_callback.
  - unfold connectMQTT. keeps_auto. apply latch_connectMQTT_loop.
  - apply latch_reconnectMQTT.
  - apply latch_checkResetButton.
  - unfold loop, client_loop. keeps_auto.
    + exact latch_checkResetButton.
    + exact latch_reconnectMQTT.
    + apply latch_callback.
  - keeps_auto.
  - keeps_auto.
  - keeps_auto.
Qed.

Lemma latch_run_ops (ops : list Op) : keeps latch_set (run_ops ops).
Proof.
  induction ops as [|op ops IH]; simpl.
  - apply keeps_ret.
  - apply keeps_bind; [apply latch_run_op | intros _; exact IH].
Qed.

Lemma latch_rises_after_set (ops : list Op) :
  forall s, latch_set s -> latch_rises ops s = 0%nat.
Proof.
  induction ops as [|op ops IH]; intros s H; simpl.
  - reflexivity.
  - rewrite H. simpl.
    destruct (result (run_op op) s); [|reflexivity].
    apply IH. apply latch_run_op, H.
Qed.

Lemma latch_rises_at_most_once (ops : list Op) :
  forall s, (latch_rises ops s <= 1)%nat.
Proof.
  induction ops as [|op ops IH]; intros s; simpl.
  - lia.
  - destruct (firstMessageSent s) eqn:Hs; simpl.
    + destruct (result (run_op op) s); [|lia].
      rewrite latch_rises_after_set; [lia|]. apply latch_run_op, Hs.
    + destruct (firstMessageSent (exec (run_op op) s)) eqn:Hs'.
      * destruct (result (run_op op) s); [|lia].
        rewrite latch_rises_after_set; [lia | exact Hs'].
      * destruct (result (run_op op) s); [|lia].
        specialize (IH (exec (run_op op) s)). lia.
Qed.

(** C10. Within one boot the startup power-off fires at most once.  A
    publish sets the first-message latch and writes the power output LOW
    exactly when the startup power-off condition holds, and otherwise
    leaves latch and pin levels alone; no operation of the sketch and no
    event of the environment clears a set latch; once it is set, a publish
    of "system_startup" leaves the pin levels unchanged; and in every run
    of operations the latch goes from clear to set at most once. *)
Theorem startup_poweroff_at_most_once :
  (forall status s,
     let s' := exec (publishData status) s in
     (startup_poweroff_fires status s = true ->
        firstMessageSent s' = true /\ pins s' (power_gpio s) = LOW) /\
     (startup_poweroff_fires status s = false ->
        firstMessageSent s' = firstMessageSent s /\ pins s' = pins s)) /\
  (forall ops s,
     firstMessageSent s = true ->
     firstMessageSent (exec (run_ops ops) s) = true) /\
  (forall s,
     firstMessageSent s = true ->
     pins (exec (publishData "system_startup") s) = pins s) /\
  (forall ops s, (latch_rises ops s <= 1)%nat).
Proof.
  assert (Hpub : forall status s,
     let s' := exec (publishData status) s in
     (startup_poweroff_fires status s = true ->
        firstMessageSent s' = true /\ pins s' (power_gpio s) = LOW) /\
     (startup_poweroff_fires status s = false ->
        firstMessageSent s' = firstMessageSent s /\ pins s' = pins s)).
  { intros status s s'. subst s'. unfold exec.
    destruct (connected s) eqn:Hc.
    - rewrite (publishData_connected status s Hc). cbv zeta.
      split; intros Hf; rewrite Hf; simpl.
      + split; [reflexivity|]. now rewrite Z.eqb_refl.
      + split; reflexivity.
    - rewrite (publishData_disconnected status s Hc). simpl.
      unfold startup_poweroff_fires. rewrite Hc. simpl.
      split; [discriminate | split; reflexivity]. }
  split; [exact Hpub|]. split; [|split].
  - intros ops s H. apply (latch_run_ops ops s H).
  - intros s H. apply (Hpub "system_startup" s).
    unfold startup_poweroff_fires. rewrite H.
    now rewrite andb_false_r.
  - intros ops s. apply latch_rises_at_most_once.
Qed.

Lemma startup_poweroff_at_most_once_witness :
  firstMessageSent
    (exec (run_ops [EnvDisconnect; OpReconnect; OpPublish "system_startup"])
       latched_device) = true /\
  pins (exec (publishData "system_startup") latched_device) = pins latched_device.
Proof.
  destruct startup_poweroff_at_most_once as (_ & Hkeep & Hpins & _).
  split.
  - apply Hkeep. reflexivity.
  - apply Hpins. reflexivity.
Defined.

(** ** Connecting to the broker *)

Lemma substring_all (n : nat) (s : string) :
  (String.length s <= n)%nat -> String.substring 0 n s = s.
Proof.
  revert n. induction s as [|c r IH]; intros n Hn.
  - destruct n; reflexivity.
  - destruct n as [|n]; simpl in *; [lia|].
    f_equal. apply IH. lia.
Qed.

Lemma length_append (a b : string) :
  String.length (a +:+ b) = (String.length a + String.length b)%nat.
Proof. induction a as [|c a IH]; simpl; [reflexivity | now rewrite IH]. Qed.

(** A topic that fits [mqtt_topic[40]] is subscribed to untruncated. *)
Lemma control_topic_fits (topic : string) :
  (String.length topic < 40)%nat ->
  snprintf 50 (topic +:+ "/control") = topic +:+ "/control".
Proof.
  intros H. unfold snprintf. apply substring_all.
  rewrite length_append. simpl. lia.
Qed.

(** Four tests of the loop condition are all [connectMQTT] ever makes:
    more fuel changes nothing. *)
Lemma connectMQTT_loop_fuel (f1 : nat) :
  forall f2 retry s,
    (Z.to_nat (4 - retry) <= f1)%nat -> (Z.to_nat (4 - retry) <= f2)%nat ->
    connectMQTT_loop f1 retry s = connectMQTT_loop f2 retry s.
Proof.
  induction f1 as [|f1 IH]; intros f2 retry s H1 H2.
  - destruct f2 as [|f2]; [reflexivity|].
    simpl. unfold client_connected. rewrite bind_gets.
    replace (retry <? 3) with false by (symmetry; apply Z.ltb_ge; lia).
    now rewrite andb_false_r.
  - destruct f2 as [|f2].
    + simpl. unfold client_connected. rewrite bind_gets.
      replace (retry <? 3) with false by (symmetry; apply Z.ltb_ge; lia).
      now rewrite andb_false_r.
    + simpl. apply bind_ext. intros c s1.
      destruct (negb c && (retry <? 3)) eqn:G; [|reflexivity].
      apply andb_true_iff in G. destruct G as [_ G]. apply Z.ltb_lt in G.
      do 3 (apply bind_ext; intros ? ?).
      match goal with |- (if ?ok then _ else _) _ = _ => destruct ok end;
        [reflexivity|].
      apply bind_ext. intros _ s2. apply IH; lia.
Qed.

Lemma connectMQTT_fuel (fuel : nat) (s : Device) :
  (4 <= fuel)%nat -> connectMQTT_loop fuel 0 s = connectMQTT s.
Proof.
  intros H. unfold connectMQTT. apply connectMQTT_loop_fuel; simpl; lia.
Qed.

(** One turn of the [while] loop, and its exit when the retries are used up. *)
Lemma connectMQTT_loop_step (fuel : nat) (retry : Z) (s : Device) :
  connected s = false -> retry < 3 ->
  connectMQTT_loop (S fuel) retry s =
    if handshake s (attempts s) then (Ret true, after_success s)
    else connectMQTT_loop fuel (retry + 1) (after_failure s).
Proof.
  intros Hc Hr. cbn [connectMQTT_loop].
  unfold client_connected, get_cfg. rewrite bind_gets, Hc.
  replace (retry <? 3) with true by (symmetry; apply Z.ltb_lt; exact Hr).
  cbn [negb andb]. rewrite !bind_gets.
  unfold bind at 1. unfold client_connect at 1. 
  destruct (handshake s (attempts s)).
  - unfold after_success. unfold_prims. simpl. rewrite <- app_assoc. reflexivity.
  - unfold after_failure. unfold delay, emit. unfold bind at 1 2. unfold modify. simpl.
    rewrite <- app_assoc. reflexivity.
Qed.

Lemma connectMQTT_loop_exhausted (fuel : nat) (s : Device) :
  connectMQTT_loop fuel 3 s = (Ret false, s).
Proof.
  destruct fuel; [reflexivity|]. cbn [connectMQTT_loop].
  unfold client_connected. rewrite bind_gets.
  now rewrite andb_false_r.
Qed.

(** C8. A call of [connectMQTT] on a disconnected device (whose topic
    fits its buffer) makes at most three handshakes, all within the call;
    every failed handshake is followed by a wait of 2000 ms; at the first
    successful handshake it subscribes to the topic suffixed with
    "/control" and returns true at once; after three failures it returns
    false, still disconnected, instead of trying further. *)
Theorem connectMQTT_bounded_retry (s : Device) :
  connected s = false ->
  (String.length (mqtt_topic (cfg s)) < 40)%nat ->
  let n := failed_handshakes s in
  let s' := exec connectMQTT s in
  let user := mqtt_user (cfg s) in
  let pass := mqtt_password (cfg s) in
  let t := clock s + 2000 * Z.of_nat n in
  (attempts s' - attempts s <= 3)%nat /\
  clock s' = t /\
  (forall i, (i < n)%nat -> handshake s (attempts s + i) = false) /\
  ((n < 3)%nat ->
     handshake s (attempts s + n) = true /\
     result connectMQTT s = Ret true /\
     connected s' = true /\
     attempts s' = (attempts s + n + 1)%nat /\
     trace s' =
       (trace s ++ failed_trace n user pass (clock s) ++
          [(t, EvConnect "ESP32C2_Client" user pass true);
           (t, EvSubscribe (mqtt_topic (cfg s) +:+ "/control"))])%list) /\
  (n = 3%nat ->
     result connectMQTT s = Ret false /\
     connected s' = false /\
     attempts s' = (attempts s + 3)%nat /\
     trace s' = (trace s ++ failed_trace 3 user pass (clock s))%list).
Proof.
  intros Hc Hfit. cbv zeta.
  unfold failed_handshakes.
  pose proof (control_topic_fits _ Hfit) as Hsub.
  assert (N1 : (attempts s + 1 = S (attempts s))%nat) by lia.
  assert (N2 : (attempts s + 2 = S (S (attempts s)))%nat) by lia.
  assert (T0 : clock s + 2000 * Z.of_nat 0 = clock s) by lia.
  assert (T1 : clock s + 2000 * Z.of_nat 1 = clock s + 2000) by lia.
  assert (T2 : clock s + 2000 * Z.of_nat 2 = clock s + 2000 + 2000) by lia.
  assert (T3 : clock s + 2000 * Z.of_nat 3 = clock s + 2000 + 2000 + 2000) by lia.
  unfold connectMQTT, result, exec.
  rewrite (connectMQTT_loop_step 3 0 s Hc) by lia.
  destruct (handshake s (attempts s)) eqn:E0.
  2: { rewrite (connectMQTT_loop_step 2 (0 + 1) (after_failure s)) by (reflexivity || lia).
       change (handshake (after_failure s) (attempts (after_failure s)))
         with (handshake s (S (attempts s))).
       destruct (handshake s (S (attempts s))) eqn:E1.
       2: { rewrite (connectMQTT_loop_step 1 (0 + 1 + 1) (after_failure (after_failure s)))
              by (reflexivity || lia).
            change (handshake (after_failure (after_failure s))
                      (attempts (after_failure (after_failure s))))
              with (handshake s (S (S (attempts s)))).
            destruct (handshake s (S (S (attempts s)))) eqn:E2.
            2: { change (0 + 1 + 1 + 1) with 3. rewrite connectMQTT_loop_exhausted.
                 rewrite T3. cbn -[Z.add].
                 split; [lia|]. split; [reflexivity|]. split.
                 { intros i Hi. destruct i as [|[|[|i]]];
                     rewrite ?Nat.add_0_r, ?N1, ?N2; first [assumption | lia]. }
                 split; [intros Hn; exfalso; lia|]. intros _.
                 repeat split; try lia.
                 all: repeat rewrite <- app_assoc; reflexivity. }
            rewrite T2, N2. cbn -[Z.add]. rewrite Hsub.
            split; [lia|]. split; [reflexivity|]. split.
            { intros i Hi. destruct i as [|[|i]];
                rewrite ?Nat.add_0_r, ?N1; first [assumption | lia]. }
            split; [|intros Hn; discriminate Hn]. intros _.
            repeat split; try assumption; try lia.
            all: repeat rewrite <- app_assoc; reflexivity. }
       rewrite T1, N1. cbn -[Z.add]. rewrite Hsub.
       split; [lia|]. split; [reflexivity|]. split.
       { intros i Hi. destruct i as [|i];
           rewrite ?Nat.add_0_r; first [assumption | lia]. }
       split; [|intros Hn; discriminate Hn]. intros _.
       repeat split; try assumption; try lia.
       all: repeat rewrite <- app_assoc; reflexivity. }
  rewrite T0, Nat.add_0_r. cbn -[Z.add]. rewrite Hsub.
  split; [lia|]. split; [reflexivity|]. split.
  { intros i Hi. lia. }
  split; [|intros Hn; discriminate Hn]. intros _.
  repeat split; try assumption; try lia.
  all: repeat rewrite <- app_assoc; reflexivity.
Qed.

Lemma connectMQTT_bounded_retry_witness :
  result connectMQTT flaky_broker_device = Ret true /\
  result connectMQTT dead_broker_device = Ret false.
Proof.
  split.
  - destruct (connectMQTT_bounded_retry flaky_broker_device)
      as (_ & _ & _ & Hok & _).
    + reflexivity.
    + vm_compute. lia.
    + apply Hok. vm_compute. lia.
  - destruct (connectMQTT_bounded_retry dead_broker_device)
      as (_ & _ & _ & _ & Hfail).
    + reflexivity.
    + vm_compute. lia.
    + apply Hfail. reflexivity.
Defined.

(** ** Loading and saving the configuration *)

(** The load in closed form. *)
Lemma set_cfg_same (s : Device) : set_cfg (cfg s) s = s.
Proof. destruct s; reflexivity. Qed.

Lemma load_config_run (s : Device) :
  load_config s = (Ret tt, set_cfg (loaded s) s).
Proof.
  unfold loaded, stored_nonempty, load_config.
  unfold_prims. simpl.
  destruct (nvs_iot_config s !! "server") as [sv|]; simpl;
    [destruct (String.eqb sv ""); simpl|];
    (destruct (nvs_iot_config s !! "led_pin") as [lv|]; simpl;
     [destruct (String.eqb lv ""); simpl|]);
    (destruct (nvs_iot_config s !! "button_pin") as [bv|]; simpl;
     [destruct (String.eqb bv ""); simpl|]);
    try reflexivity; destruct s; reflexivity.
Qed.

(** A stored value that fits is one the load can copy. *)
Lemma stored_nonempty_fits (s : Device) (key : string) (cap : nat) (v : string) :
  stored_fits s key cap = true -> stored_nonempty s key = Some v ->
  fits cap v = true.
Proof.
  unfold stored_fits, stored_nonempty.
  destruct (nvs_iot_config s !! key) as [w|]; [|discriminate].
  destruct (String.eqb w ""); [discriminate|]. now intros H [= <-].
Qed.

Lemma default_fits (s : Device) (key : string) (cap : nat) (d : string) :
  stored_fits s key cap = true -> fits cap d = true ->
  fits cap (default d (nvs_iot_config s !! key)) = true.
Proof.
  unfold stored_fits. now destruct (nvs_iot_config s !! key).
Qed.

(** The load keeps every global within its buffer. *)
Lemma loaded_fits (s : Device) :
  store_fits s = true -> config_fits (cfg s) = true ->
  config_fits (loaded s) = true.
Proof.
  unfold store_fits. intros Hs Hc.
  repeat (apply andb_prop in Hs; destruct Hs as [Hs ?]).
  unfold loaded. cbv zeta.
  destruct (stored_nonempty s "server") as [sv|] eqn:Es;
    destruct (stored_nonempty s "led_pin") as [lv|] eqn:El;
    destruct (stored_nonempty s "button_pin") as [bv|] eqn:Eb.
  all: destruct (cfg s) as [c1 c2 c3 c4 c5 c6 c7 c8]; unfold config_fits in *;
    cbn [with_led_pin with_button_pin with_topic with_password with_user
         with_port with_server mqtt_server mqtt_port mqtt_user mqtt_password
         mqtt_topic button_pin led_pin power_pin] in *.
  all: repeat (apply andb_prop in Hc; destruct Hc as [Hc ?]).
  all: repeat (apply andb_true_intro; split).
  all: eauto using stored_nonempty_fits, default_fits.
Qed.

(** C3 (amended). Whatever the operational-config store holds, as long
    as each stored value fits the global it is copied into, the load
    returns and changes the configuration globals only.  The LED pin and
    the button pin are loaded independently: each takes its stored value
    when a non-empty one exists and keeps its in-memory value otherwise.
    The five messaging fields are loaded as a group, gated on the server
    key: when a non-empty server is stored, the server takes it, port,
    user and password take their stored values when present and their
    compiled defaults otherwise, and the topic takes its stored value when
    present; when no non-empty server is stored, all five keep their
    in-memory values whatever is stored under their keys.  The power pin
    is not touched by this load, and globals that were within their
    buffers before the load are within them after it. *)
Theorem load_config_fields (s : Device) :
  store_fits s = true ->
  let iot := nvs_iot_config s in
  let c := cfg s in
  let c' := cfg (exec load_config s) in
  result load_config s = Ret tt /\
  exec load_config s = set_cfg c' s /\
  led_pin c' = default (led_pin c) (stored_nonempty s "led_pin") /\
  button_pin c' = default (button_pin c) (stored_nonempty s "button_pin") /\
  power_pin c' = power_pin c /\
  (forall v, stored_nonempty s "server" = Some v ->
     mqtt_server c' = v /\
     mqtt_port c' = default (mqtt_port default_config) (iot !! "port") /\
     mqtt_user c' = default (mqtt_user default_config) (iot !! "user") /\
     mqtt_password c' = default (mqtt_password default_config) (iot !! "password") /\
     (forall t, iot !! "topic" = Some t -> mqtt_topic c' = t)) /\
  (stored_nonempty s "server" = None ->
     mqtt_server c' = mqtt_server c /\
     mqtt_port c' = mqtt_port c /\
     mqtt_user c' = mqtt_user c /\
     mqtt_password c' = mqtt_password c /\
     mqtt_topic c' = mqtt_topic c) /\
  (config_fits c = true -> config_fits c' = true).
Proof.
  intros Hfits. cbv zeta. unfold result, exec. rewrite load_config_run.
  cbn [fst snd cfg set_cfg].
  assert (Hkeep : config_fits (cfg s) = true -> config_fits (loaded s) = true)
    by exact (loaded_fits s Hfits).
  revert Hkeep. generalize (config_fits (loaded s)). intros kept Hkeep.
  unfold loaded.
  split; [reflexivity|]. split; [reflexivity|].
  destruct (stored_nonempty s "led_pin") as [lv|];
    destruct (stored_nonempty s "button_pin") as [bv|];
    destruct (stored_nonempty s "server") as [sv|];
    cbn [default from_option id with_led_pin with_button_pin with_topic
         with_password with_user with_port with_server
         mqtt_server mqtt_port mqtt_user mqtt_password mqtt_topic
         button_pin led_pin power_pin default_config].
  all: repeat split; try discriminate.
  all: try congruence.
  all: try exact Hkeep.
  all: intros t Ht; rewrite Ht; reflexivity.
Qed.

(** A store holding only a port: the stored port is not loaded. *)
Lemma load_config_independent_counterexample :
  nvs_iot_config port_only_device !! "port" = Some "8883" /\
  mqtt_port (cfg (exec load_config port_only_device)) = "1883" /\
  mqtt_port (cfg (exec load_config port_only_device)) <> "8883".
Proof. repeat split. discriminate. Qed.

Lemma load_config_fields_witness :
  store_fits port_only_device = true /\
  store_fits current_device = true /\
  mqtt_port (cfg (exec load_config port_only_device)) = "1883" /\
  mqtt_topic (cfg (exec load_config current_device)) = "switch1".
Proof.
  split; [vm_compute; reflexivity|].
  split; [vm_compute; reflexivity|].
  split.
  - destruct (load_config_fields port_only_device)
      as (_ & _ & _ & _ & _ & _ & Hnone & _).
    + vm_compute; reflexivity.
    + apply Hnone. reflexivity.
  - destruct (load_config_fields current_device)
      as (_ & _ & _ & _ & _ & Hsome & _).
    + vm_compute; reflexivity.
    + destruct (Hsome "broker.lan") as (_ & _ & _ & _ & Htopic).
      * reflexivity.
      * apply Htopic. reflexivity.
Defined.

(** With a server stored and no topic stored, the topic becomes "esp32c2",
    which is not the initialiser "esp32" of the global. *)
Remark load_config_topic_fallback :
  mqtt_topic (cfg (exec load_config offline_device)) = "esp32c2" /\
  mqtt_topic default_config = "esp32".
Proof. split; reflexivity. Qed.

Lemma save_config_run (s : Device) :
  save_config s =
    (Ret tt,
     set_nvs iot_config
       (<["power_pin" := power_pin (cfg s)]>
        (<["led_pin" := led_pin (cfg s)]>
         (<["button_pin" := button_pin (cfg s)]>
          (<["topic" := mqtt_topic (cfg s)]>
           (<["password" := mqtt_password (cfg s)]>
            (<["user" := mqtt_user (cfg s)]>
             (<["port" := mqtt_port (cfg s)]>
              (<["server" := mqtt_server (cfg s)]> (nvs_iot_config s))))))))) s).
Proof. reflexivity. Qed.

Ltac saved_lookup :=
  repeat (rewrite lookup_insert_ne by discriminate); apply lookup_insert_eq.

Lemma save_config_stores (s : Device) :
  holds_config (nvs_iot_config (exec save_config s)) (cfg s).
Proof.
  unfold exec. rewrite save_config_run. cbn [snd set_nvs nvs_iot_config].
  unfold holds_config. repeat split; saved_lookup.
Qed.

Lemma config_eq (c d : Config) :
  mqtt_server c = mqtt_server d -> mqtt_port c = mqtt_port d ->
  mqtt_user c = mqtt_user d -> mqtt_password c = mqtt_password d ->
  mqtt_topic c = mqtt_topic d -> button_pin c = button_pin d ->
  led_pin c = led_pin d -> power_pin c = power_pin d -> c = d.
Proof. destruct c, d; simpl; intros; subst; reflexivity. Qed.

Lemma stored_nonempty_some (s : Device) (key v : string) :
  nvs_iot_config s !! key = Some v -> v <> "" -> stored_nonempty s key = Some v.
Proof.
  intros H Hv. unfold stored_nonempty. rewrite H.
  now rewrite (proj2 (String.eqb_neq v "") Hv).
Qed.

Lemma setupPowerPin_spec (s : Device) :
  let s' := exec setupPowerPin s in
  result setupPowerPin s = Ret tt /\
  nvs_iot_config s' = nvs_iot_config s /\
  cfg s' = match stored_nonempty s "power_pin" with
           | Some v => with_power_pin v (cfg s)
           | None => cfg s
           end /\
  nvs_system_flags s' = nvs_system_flags s.
Proof.
  cbv zeta. unfold stored_nonempty, result, exec, setupPowerPin.
  unfold_prims. simpl.
  destruct (nvs_iot_config s !! "power_pin") as [v|]; simpl;
    [destruct (String.eqb v ""); simpl|]; repeat split.
Qed.

Lemma load_config_restores (s1 : Device) (c : Config) :
  holds_config (nvs_iot_config s1) c ->
  mqtt_server c <> "" -> button_pin c <> "" -> led_pin c <> "" ->
  power_pin (cfg s1) = power_pin c ->
  result load_config s1 = Ret tt /\ cfg (exec load_config s1) = c.
Proof.
  intros (Ks & Kpo & Ku & Kpw & Kt & Kb & Kl & Kp) Hs Hb Hl Hp.
  unfold result, exec. rewrite load_config_run.
  cbn [fst snd cfg set_cfg]. split; [reflexivity|]. unfold loaded.
  rewrite (stored_nonempty_some s1 "server" _ Ks Hs).
  rewrite (stored_nonempty_some s1 "led_pin" _ Kl Hl).
  rewrite (stored_nonempty_some s1 "button_pin" _ Kb Hb).
  rewrite Kpo, Ku, Kpw, Kt. cbn [default from_option id].
  apply config_eq; try reflexivity. exact Hp.
Qed.

Lemma boot_load_restores (s0 : Device) (c : Config) :
  holds_config (nvs_iot_config s0) c ->
  mqtt_server c <> "" -> button_pin c <> "" -> led_pin c <> "" ->
  power_pin c <> "" ->
  result (setupPowerPin ;; load_config) s0 = Ret tt /\
  cfg (exec (setupPowerPin ;; load_config) s0) = c.
Proof.
  intros Hh Hs Hb Hl Hp.
  destruct (setupPowerPin_spec s0) as (R1 & N1 & C1 & _).
  rewrite (bind_ret_result setupPowerPin (fun _ => load_config) s0 tt R1).
  rewrite (bind_ret_exec setupPowerPin (fun _ => load_config) s0 tt R1).
  apply load_config_restores; try assumption.
  - rewrite N1. exact Hh.
  - rewrite C1.
    rewrite (stored_nonempty_some s0 "power_pin" (power_pin c)); [reflexivity| |exact Hp].
    apply Hh.
Qed.

Lemma power_on_iot (iot sys : gmap string string) (wifi : bool)
    (levels : Z -> bool) (hs : nat -> bool) :
  nvs_iot_config (power_on iot sys wifi levels hs) = iot.
Proof. reflexivity. Qed.

(** C4 (amended). For every configuration whose server, button pin, LED
    pin and power pin are non-empty, saving it and then running the boot
    reads of the operational-config namespace (the power-pin read of
    [setupPowerPin], then the configuration load) on a freshly started
    device with the resulting store yields an in-memory configuration
    equal to the saved one in all eight fields. *)
Theorem save_then_boot_load_roundtrip (s : Device)
    (sys : gmap string string) (wifi : bool) (levels : Z -> bool)
    (hs : nat -> bool) :
  mqtt_server (cfg s) <> "" ->
  button_pin (cfg s) <> "" ->
  led_pin (cfg s) <> "" ->
  power_pin (cfg s) <> "" ->
  let saved := exec save_config s in
  let booted := power_on (nvs_iot_config saved) sys wifi levels hs in
  result save_config s = Ret tt /\
  result (setupPowerPin ;; load_config) booted = Ret tt /\
  cfg (exec (setupPowerPin ;; load_config) booted) = cfg s.
Proof.
  intros Hs Hb Hl Hp. cbv zeta.
  split; [unfold result; rewrite save_config_run; reflexivity|].
  apply boot_load_restores; try assumption.
  rewrite power_on_iot. apply save_config_stores.
Qed.

(** The same through the whole start of [setup], when the stored firmware
    version is the compiled one. *)
Corollary save_then_boot_roundtrip (s : Device)
    (sys : gmap string string) (wifi : bool) (levels : Z -> bool)
    (hs : nat -> bool) :
  mqtt_server (cfg s) <> "" ->
  button_pin (cfg s) <> "" ->
  led_pin (cfg s) <> "" ->
  power_pin (cfg s) <> "" ->
  sys !! VERSION_KEY = Some FIRMWARE_VERSION ->
  let booted := power_on (nvs_iot_config (exec save_config s)) sys wifi levels hs in
  cfg (exec (setupPowerPin ;; checkFirmwareVersion ;; load_config) booted) = cfg s.
Proof.
  intros Hs Hb Hl Hp Hv booted.
  destruct (setupPowerPin_spec booted) as (R1 & N1 & C1 & F1).
  rewrite (bind_ret_exec setupPowerPin _ booted tt R1).
  assert (Hsys : nvs_system_flags (exec setupPowerPin booted) !! VERSION_KEY
                 = Some FIRMWARE_VERSION) by (rewrite F1; exact Hv).
  destruct (checkFirmwareVersion_unchanged _ Hsys) as [R2 E2].
  rewrite (bind_ret_exec checkFirmwareVersion _ _ tt R2), E2.
  apply load_config_restores; try assumption.
  - rewrite N1. unfold booted. rewrite power_on_iot. apply save_config_stores.
  - rewrite C1.
    rewrite (stored_nonempty_some booted "power_pin" (power_pin (cfg s)));
      [reflexivity| |exact Hp].
    unfold booted. rewrite power_on_iot. apply save_config_stores.
Qed.

Lemma save_then_boot_load_roundtrip_witness :
  cfg (exec (setupPowerPin ;; load_config)
         (power_on (nvs_iot_config (exec save_config provisioned_device))
            ∅ false (fun _ => HIGH) (fun _ => false)))
  = cfg provisioned_device.
Proof.
  apply (save_then_boot_load_roundtrip provisioned_device);
    vm_compute; discriminate.
Defined.

(** An operator who changes the port and leaves the server empty: the
    saved port is not read back. *)
Lemma save_then_boot_load_counterexample :
  let saved := exec save_config custom_port_device in
  let booted := power_on (nvs_iot_config saved) (nvs_system_flags saved)
                  true (fun _ => HIGH) (fun _ => true) in
  mqtt_port (cfg custom_port_device) = "8883" /\
  nvs_iot_config saved !! "port" = Some "8883" /\
  mqtt_port (cfg (exec (setupPowerPin ;; load_config) booted)) = "1883" /\
  cfg (exec (setupPowerPin ;; load_config) booted) <> cfg custom_port_device.
Proof.
  cbv zeta. split; [reflexivity|]. split; [vm_compute; reflexivity|].
  split; [vm_compute; reflexivity|].
  intros E. apply (f_equal mqtt_port) in E. vm_compute in E. discriminate E.
Qed.

(** ** The long-press monitor *)

Lemma checkResetButton_released (s : Device) :
  pins s (button_gpio s) = HIGH ->
  checkResetButton s = (Ret tt, set_longPressActive false (set_buttonPressTime 0 s)).
Proof.
  intros H. unfold checkResetButton, get_cfg, digitalRead.
  rewrite !bind_gets. fold (button_gpio s). rewrite H. reflexivity.
Qed.

Lemma checkResetButton_press_start (s : Device) :
  pins s (button_gpio s) = LOW -> buttonPressTime s = 0 ->
  checkResetButton s = (Ret tt, set_buttonPressTime (to_ulong (clock s)) s).
Proof.
  intros H Hb. unfold checkResetButton, get_cfg, digitalRead.
  rewrite !bind_gets. fold (button_gpio s). rewrite H. cbn [Bool.eqb].
  rewrite bind_gets, Hb. reflexivity.
Qed.

Lemma checkResetButton_holding (s : Device) :
  pins s (button_gpio s) = LOW -> buttonPressTime s <> 0 ->
  longPressActive s = false ->
  checkResetButton s =
    if RESET_HOLD_TIME <? to_ulong (to_ulong (clock s) - buttonPressTime s)
    then resetConfig (set_longPressActive true s)
    else (Ret tt, s).
Proof.
  intros H Hb Hl. unfold checkResetButton, get_cfg, digitalRead.
  rewrite !bind_gets. fold (button_gpio s). rewrite H. cbn [Bool.eqb].
  rewrite bind_gets. rewrite (proj2 (Z.eqb_neq _ 0) Hb).
  rewrite bind_gets, Hl. unfold millis. rewrite bind_gets. cbn [negb andb].
  destruct (RESET_HOLD_TIME <? _); reflexivity.
Qed.

Lemma checkResetButton_latched (s : Device) :
  pins s (button_gpio s) = LOW -> buttonPressTime s <> 0 ->
  longPressActive s = true ->
  checkResetButton s = (Ret tt, s).
Proof.
  intros H Hb Hl. unfold checkResetButton, get_cfg, digitalRead.
  rewrite !bind_gets. fold (button_gpio s). rewrite H. cbn [Bool.eqb].
  rewrite bind_gets. rewrite (proj2 (Z.eqb_neq _ 0) Hb).
  rewrite bind_gets, Hl. reflexivity.
Qed.

Lemma present_level (smp : Sample) (s : Device) :
  pins (present smp s) (button_gpio (present smp s)) = level smp.
Proof. unfold present, button_gpio. simpl. now rewrite Z.eqb_refl. Qed.

Lemma sample_release (t : Z) (s : Device) :
  let smp := mkSample HIGH t in
  result (sample smp) s = Ret tt /\
  idle (exec (sample smp) s) /\ quiet s (exec (sample smp) s).
Proof.
  cbv zeta. unfold result, exec, sample. rewrite bind_modify.
  rewrite checkResetButton_released by apply present_level.
  repeat split.
Qed.

Lemma sample_press_start (t0 : Z) (s : Device) :
  idle s ->
  let smp := mkSample LOW t0 in
  result (sample smp) s = Ret tt /\
  buttonPressTime (exec (sample smp) s) = to_ulong t0 /\
  longPressActive (exec (sample smp) s) = false /\
  quiet s (exec (sample smp) s).
Proof.
  intros [Hb Hl]. cbv zeta. unfold result, exec, sample. rewrite bind_modify.
  rewrite checkResetButton_press_start; [|apply present_level|exact Hb].
  repeat split. exact Hl.
Qed.

Lemma sample_hold_below (b t : Z) (s : Device) :
  buttonPressTime s = b -> b <> 0 -> longPressActive s = false ->
  to_ulong (to_ulong t - b) <= RESET_HOLD_TIME ->
  let smp := mkSample LOW t in
  result (sample smp) s = Ret tt /\
  buttonPressTime (exec (sample smp) s) = b /\
  longPressActive (exec (sample smp) s) = false /\
  quiet s (exec (sample smp) s).
Proof.
  intros Hb Hnz Hl Hle. cbv zeta. unfold result, exec, sample. rewrite bind_modify.
  rewrite checkResetButton_holding;
    [|apply present_level|cbn; rewrite Hb; exact Hnz|exact Hl].
  cbn [clock present set_clock at_ms buttonPressTime set_pins].
  rewrite Hb. rewrite (proj2 (Z.ltb_ge _ _) Hle).
  repeat split; assumption.
Qed.

Lemma resets_app (a b : list (Z * Event)) :
  resets (a ++ b) = (resets a + resets b)%nat.
Proof. unfold resets. now rewrite List.filter_app, List.length_app. Qed.

Lemma toggle_no_reset (s : Device) :
  let body := (l <- get_cfg led_pin ;;
               v <- digitalRead (atoi l) ;;
               digitalWrite (atoi l) (negb v) ;;
               delay 100) in
  result body s = Ret tt /\
  resets (trace (exec body s)) = resets (trace s).
Proof.
  cbv zeta. split; [reflexivity|].
  unfold exec. unfold_prims. cbn [fst snd trace set_trace set_pins set_clock].
  rewrite !resets_app. cbn. lia.
Qed.

Lemma resetConfig_trace (s : Device) :
  resets (trace (exec resetConfig s)) = S (resets (trace s)).
Proof.
  unfold resetConfig.
  destruct (repeat_n_preserves
              (fun s' => resets (trace s') = resets (trace s)) _
              (fun s' H => conj (proj1 (toggle_no_reset s'))
                             (eq_trans (proj2 (toggle_no_reset s')) H))
              10 s eq_refl) as [R T].
  rewrite (bind_ret_exec _ _ s tt R).
  set (s1 := exec (repeat_n 10 _) s) in *. clearbody s1.
  unfold exec. unfold_prims. cbn [fst snd trace set_trace set_wifi_saved].
  rewrite !resets_app, T. cbn. lia.
Qed.

Lemma sample_hold_beyond_run (b t : Z) (s : Device) :
  buttonPressTime s = b -> b <> 0 -> longPressActive s = false ->
  RESET_HOLD_TIME < to_ulong (to_ulong t - b) ->
  sample (mkSample LOW t) s =
    resetConfig (set_longPressActive true (present (mkSample LOW t) s)).
Proof.
  intros Hb Hnz Hl Hgt. unfold sample. rewrite bind_modify.
  rewrite checkResetButton_holding;
    [|apply present_level|cbn; rewrite Hb; exact Hnz|exact Hl].
  cbn [clock present set_clock at_ms buttonPressTime set_pins].
  rewrite Hb. rewrite (proj2 (Z.ltb_lt _ _) Hgt). reflexivity.
Qed.

Lemma sample_hold_beyond (b t : Z) (s : Device) :
  buttonPressTime s = b -> b <> 0 -> longPressActive s = false ->
  RESET_HOLD_TIME < to_ulong (to_ulong t - b) ->
  let smp := mkSample LOW t in
  result (sample smp) s = Halt Restarted /\
  wifi_saved (exec (sample smp) s) = false /\
  nvs_iot_config (exec (sample smp) s) = nvs_iot_config s /\
  nvs_system_flags (exec (sample smp) s) = nvs_system_flags s /\
  resets (trace (exec (sample smp) s)) = S (resets (trace s)).
Proof.
  intros Hb Hnz Hl Hgt smp.
  pose proof (sample_hold_beyond_run b t s Hb Hnz Hl Hgt) as Hrun.
  fold smp in Hrun.
  rewrite (result_ext _ _ _ _ Hrun), (exec_ext _ _ _ _ Hrun).
  destruct (resetConfig_forgets_wifi_only
              (set_longPressActive true (present smp s)))
    as (R & W & I & F).
  rewrite R, W, I, F, resetConfig_trace. repeat split.
Qed.

Lemma quiet_refl (s : Device) : quiet s s.
Proof. repeat split. Qed.

Lemma quiet_trans (s1 s2 s3 : Device) : quiet s1 s2 -> quiet s2 s3 -> quiet s1 s3.
Proof.
  intros (A1 & B1 & C1) (A2 & B2 & C2).
  repeat split; etransitivity; eassumption.
Qed.

Lemma quiet_fields (s s' : Device) :
  quiet s s' ->
  nvs_iot_config s' = nvs_iot_config s /\
  nvs_system_flags s' = nvs_system_flags s /\
  wifi_saved s' = wifi_saved s /\
  trace s' = trace s.
Proof.
  intros (_ & P & T). unfold persisted in P. inversion P. repeat split; assumption.
Qed.

Lemma run_samples_cons_ret (smp : Sample) (rest : list Sample) (s : Device) :
  result (sample smp) s = Ret tt ->
  run_samples (smp :: rest) s = run_samples rest (exec (sample smp) s).
Proof.
  intros H. cbn [run_samples].
  exact (bind_ret_run (sample smp) (fun _ => run_samples rest) s tt H).
Qed.

Lemma run_samples_cons_halt (smp : Sample) (rest : list Sample) (s : Device)
    (h : HaltKind) :
  result (sample smp) s = Halt h ->
  run_samples (smp :: rest) s = (Halt h, exec (sample smp) s).
Proof.
  intros H. cbn [run_samples].
  exact (bind_halt_run (sample smp) (fun _ => run_samples rest) s h H).
Qed.

(** Samples of a held button below the threshold only pass time. *)
Lemma holding_below_run (b : Z) (ts : list Z) :
  b <> 0 ->
  Forall (fun t => to_ulong (to_ulong t - b) <= RESET_HOLD_TIME) ts ->
  forall s, buttonPressTime s = b -> longPressActive s = false ->
  exists s',
    (forall k, run_samples (map (mkSample LOW) ts ++ k) s = run_samples k s') /\
    buttonPressTime s' = b /\ longPressActive s' = false /\ quiet s s'.
Proof.
  intros Hnz Hall. induction Hall as [|t ts Ht Hts IH]; intros s Hb Hl.
  - exists s. split; [reflexivity|]. split; [exact Hb|]. split; [exact Hl|].
    apply quiet_refl.
  - destruct (sample_hold_below b t s Hb Hnz Hl Ht) as (R & Hb1 & Hl1 & Q1).
    destruct (IH _ Hb1 Hl1) as (s' & Hrun & Hb' & Hl' & Q').
    exists s'. split; [|split; [exact Hb'|split; [exact Hl'|]]].
    + intros k. cbn [map app].
      rewrite (run_samples_cons_ret _ _ _ R). apply Hrun.
    + exact (quiet_trans _ _ _ Q1 Q').
Qed.

(** A press that starts at [t0] and stays below the threshold. *)
Lemma press_below_run (t0 : Z) (ts : list Z) (s : Device) :
  idle s -> to_ulong t0 <> 0 ->
  Forall (fun t => elapsed t0 t <= RESET_HOLD_TIME) ts ->
  exists s',
    (forall k, run_samples (held t0 ts ++ k) s = run_samples k s') /\
    buttonPressTime s' = to_ulong t0 /\ longPressActive s' = false /\ quiet s s'.
Proof.
  intros Hidle Hnz Hall.
  destruct (sample_press_start t0 s Hidle) as (R & Hb1 & Hl1 & Q1).
  destruct (holding_below_run (to_ulong t0) ts Hnz Hall _ Hb1 Hl1)
    as (s' & Hrun & Hb' & Hl' & Q').
  exists s'. split; [|split; [exact Hb'|split; [exact Hl'|]]].
  - intros k. unfold held. cbn [map app].
    rewrite (run_samples_cons_ret _ _ _ R). apply Hrun.
  - exact (quiet_trans _ _ _ Q1 Q').
Qed.

Lemma run_samples_single (smp : Sample) (s : Device) :
  result (sample smp) s = Ret tt ->
  run_samples [smp] s = (Ret tt, exec (sample smp) s).
Proof. intros H. rewrite (run_samples_cons_ret _ _ _ H). reflexivity. Qed.

(** C5 (amended). For every sequence of once-per-loop samples that
    starts without a press session and whose first held sample is taken at
    a non-zero [millis] value: while every held sample sees an elapsed
    time of at most 5000 ms (exactly 5000 ms included), no reset is
    triggered, and a release then clears the timestamp and the latch and
    leaves configuration, stored state and trace as they were; the first
    held sample whose elapsed time strictly exceeds 5000 ms triggers the
    reset, exactly once, and the run ends there in a restart; and after a
    release a new press is timed from its own first sample and triggers
    its own reset. *)
Theorem long_press_reset (s : Device) (t0 : Z) (ts : list Z) :
  idle s ->
  to_ulong t0 <> 0 ->
  Forall (fun t => elapsed t0 t <= RESET_HOLD_TIME) ts ->
  (forall t_rel,
     let run := run_samples (held t0 ts ++ [mkSample HIGH t_rel]) in
     result run s = Ret tt /\ idle (exec run s) /\ quiet s (exec run s)) /\
  (forall t rest,
     RESET_HOLD_TIME < elapsed t0 t ->
     let run := run_samples (held t0 ts ++ mkSample LOW t :: rest) in
     result run s = Halt Restarted /\
     wifi_saved (exec run s) = false /\
     nvs_iot_config (exec run s) = nvs_iot_config s /\
     nvs_system_flags (exec run s) = nvs_system_flags s /\
     resets (trace (exec run s)) = S (resets (trace s))) /\
  (forall t_rel t1 ts1 t rest,
     to_ulong t1 <> 0 ->
     Forall (fun u => elapsed t1 u <= RESET_HOLD_TIME) ts1 ->
     RESET_HOLD_TIME < elapsed t1 t ->
     let run := run_samples (held t0 ts ++ mkSample HIGH t_rel ::
                             held t1 ts1 ++ mkSample LOW t :: rest) in
     result run s = Halt Restarted /\
     resets (trace (exec run s)) = S (resets (trace s))).
Proof.
  intros Hidle Hnz Hall.
  destruct (press_below_run t0 ts s Hidle Hnz Hall) as (s1 & Hrun & Hb1 & Hl1 & Q1).
  assert (Hrel : forall t_rel,
            result (sample (mkSample HIGH t_rel)) s1 = Ret tt /\
            idle (exec (sample (mkSample HIGH t_rel)) s1) /\
            quiet s (exec (sample (mkSample HIGH t_rel)) s1)).
  { intros t_rel. destruct (sample_release t_rel s1) as (R & I & Q).
    split; [exact R|]. split; [exact I|]. exact (quiet_trans _ _ _ Q1 Q). }
  split; [|split].
  - intros t_rel run. subst run. destruct (Hrel t_rel) as (R & I & Q).
    pose proof (eq_trans (Hrun _) (run_samples_single _ _ R)) as E.
    rewrite (result_ext _ (ret tt) _ _ E), (exec_ext _ (ret tt) _ _ E).
    split; [reflexivity|]. split; [exact I|exact Q].
  - intros t rest Hgt run. subst run.
    destruct (sample_hold_beyond (to_ulong t0) t s1 Hb1 Hnz Hl1 Hgt)
      as (R & W & I & F & T).
    pose proof (eq_trans (Hrun _) (run_samples_cons_halt _ rest _ _ R)) as E.
    rewrite (result_ext _ (halt Restarted) _ _ E), (exec_ext _ (halt Restarted) _ _ E).
    destruct (quiet_fields _ _ Q1) as (Qi & Qf & _ & Qt).
    split; [reflexivity|].
    change (exec (halt Restarted) ?x) with x.
    rewrite W, I, F, T, Qi, Qf, Qt. repeat split.
  - intros t_rel t1 ts1 t rest Hnz1 Hall1 Hgt run. subst run.
    destruct (Hrel t_rel) as (R & I & Q).
    destruct (press_below_run t1 ts1 _ I Hnz1 Hall1) as (s2 & Hrun2 & Hb2 & Hl2 & Q2).
    destruct (sample_hold_beyond (to_ulong t1) t s2 Hb2 Hnz1 Hl2 Hgt)
      as (R3 & _ & _ & _ & T3).
    pose proof (eq_trans (Hrun _)
                  (eq_trans (run_samples_cons_ret _ _ _ R)
                     (eq_trans (Hrun2 _) (run_samples_cons_halt _ rest _ _ R3)))) as E.
    rewrite (result_ext _ (halt Restarted) _ _ E), (exec_ext _ (halt Restarted) _ _ E).
    destruct (quiet_fields _ _ (quiet_trans _ _ _ Q Q2)) as (_ & _ & _ & Qt).
    split; [reflexivity|].
    change (exec (halt Restarted) ?x) with x.
    rewrite T3, Qt. reflexivity.
Qed.

Lemma long_press_reset_witness :
  result (run_samples (held 1000 [2000; 6000] ++ [mkSample LOW 6100]))
    offline_device = Halt Restarted /\
  result (run_samples (held 1000 [2000; 6000] ++ [mkSample HIGH 6100]))
    offline_device = Ret tt.
Proof.
  destruct (long_press_reset offline_device 1000 [2000; 6000])
    as (Hshort & Hlong & _).
  - split; reflexivity.
  - vm_compute. discriminate.
  - repeat constructor; vm_compute; discriminate.
  - split.
    + apply (Hlong 6100 []). vm_compute. reflexivity.
    + apply (Hshort 6100).
Defined.

(** A button sampled as held from 1000 ms to 6000 ms, exactly the
    threshold, and released at 6100 ms: no reset happens. *)
Lemma exact_threshold_counterexample :
  let run := run_samples [mkSample LOW 1000; mkSample LOW 2000;
                          mkSample LOW 3000; mkSample LOW 4000;
                          mkSample LOW 5000; mkSample LOW 6000;
                          mkSample HIGH 6100] in
  elapsed 1000 6000 = RESET_HOLD_TIME /\
  result run offline_device = Ret tt /\
  wifi_saved (exec run offline_device) = wifi_saved offline_device /\
  resets (trace (exec run offline_device)) = 0%nat.
Proof. cbv zeta. repeat split; vm_compute; reflexivity. Qed.

(** ** The power sequencer *)

Lemma setupPowerPin_run (s : Device) :
  let s' := exec setupPowerPin s in
  result setupPowerPin s = Ret tt /\
  cfg s' = with_power_pin
             (default (power_pin (cfg s)) (stored_nonempty s "power_pin")) (cfg s) /\
  pins s' (power_gpio s') = HIGH /\
  (forall q, q <> power_gpio s' -> pins s' q = pins s q) /\
  persisted s' = persisted s /\
  clock s' = clock s.
Proof.
  cbv zeta. unfold stored_nonempty, result, exec, setupPowerPin, power_gpio.
  unfold_prims. simpl.
  destruct (nvs_iot_config s !! "power_pin") as [v|]; simpl;
    [destruct (String.eqb v ""); simpl|].
  all: rewrite Z.eqb_refl.
  all: split; [reflexivity|]; split; [destruct (cfg s); reflexivity|].
  all: split; [reflexivity|]; split; [|split; reflexivity].
  all: intros q Hq; now rewrite (proj2 (Z.eqb_neq _ _) Hq).
Qed.

(** X1. When the power pin global and the stored power pin, if any, fit
    the [char [3]] buffer, [setupPowerPin] returns with the power output
    HIGH: the power pin global takes the stored value when a non-empty one
    exists and keeps its in-memory value otherwise, it still fits the
    buffer, that pin reads HIGH, and no other pin, no persisted state and
    no time is touched. *)
Theorem setupPowerPin_asserts_power (s : Device) :
  fits 3 (power_pin (cfg s)) = true ->
  stored_fits s "power_pin" 3 = true ->
  let s' := exec setupPowerPin s in
  result setupPowerPin s = Ret tt /\
  cfg s' = with_power_pin
             (default (power_pin (cfg s)) (stored_nonempty s "power_pin")) (cfg s) /\
  fits 3 (power_pin (cfg s')) = true /\
  pins s' (power_gpio s') = HIGH /\
  (forall q, q <> power_gpio s' -> pins s' q = pins s q) /\
  persisted s' = persisted s /\
  clock s' = clock s.
Proof.
  intros Hmem Hst. cbv zeta.
  destruct (setupPowerPin_run s) as (R & C & Rest).
  split; [exact R|]. split; [exact C|]. split; [|exact Rest].
  rewrite C. cbn [power_pin with_power_pin].
  destruct (stored_nonempty s "power_pin") as [v|] eqn:E;
    cbn [default from_option id].
  - exact (stored_nonempty_fits s "power_pin" 3 v Hst E).
  - exact Hmem.
Qed.

Lemma setupPowerPin_asserts_power_witness :
  fits 3 (power_pin (cfg moved_power_device)) = true /\
  stored_fits moved_power_device "power_pin" 3 = true /\
  power_pin (cfg (exec setupPowerPin moved_power_device)) = "5" /\
  pins (exec setupPowerPin moved_power_device) 5 = HIGH.
Proof.
  split; [vm_compute; reflexivity|].
  split; [vm_compute; reflexivity|].
  destruct (setupPowerPin_asserts_power moved_power_device)
    as (_ & C & _ & P & _).
  - vm_compute. reflexivity.
  - vm_compute. reflexivity.
  - split; [rewrite C; reflexivity|].
    rewrite <- P. unfold power_gpio. rewrite C. reflexivity.
Defined.

(** ** Version migration, continued *)

Lemma checkFirmwareVersion_sets_version (s : Device) :
  nvs_system_flags (exec checkFirmwareVersion s) !! VERSION_KEY
    = Some FIRMWARE_VERSION.
Proof.
  unfold checkFirmwareVersion, getString, exec. rewrite bind_gets. cbn [get_nvs].
  destruct (String.eqb_spec (default "" (nvs_system_flags s !! VERSION_KEY))
              FIRMWARE_VERSION) as [E|E]; cbn [negb when].
  - cbn [ret snd]. destruct (nvs_system_flags s !! VERSION_KEY) as [v|]; simpl in E.
    + now rewrite E.
    + discriminate E.
  - cbn. apply lookup_insert_eq.
Qed.

(** X2. The version check is idempotent: run again on the state it
    leaves, it returns and changes nothing, whatever the first run found. *)
Theorem checkFirmwareVersion_idempotent (s : Device) :
  result checkFirmwareVersion (exec checkFirmwareVersion s) = Ret tt /\
  exec checkFirmwareVersion (exec checkFirmwareVersion s)
    = exec checkFirmwareVersion s.
Proof.
  apply checkFirmwareVersion_unchanged, checkFirmwareVersion_sets_version.
Qed.

Lemma blink_n (pin : Z) (n : nat) :
  forall s,
    let m := repeat_n n (digitalWrite pin HIGH ;; delay 100 ;;
                         digitalWrite pin LOW ;; delay 100) in
    trace (exec m s) = (trace s ++ blink_trace n pin (clock s))%list.
Proof.
  cbv zeta. induction n as [|n IH]; intros s.
  - cbn. now rewrite app_nil_r.
  - cbn [repeat_n blink_trace].
    rewrite (bind_ret_exec
               (digitalWrite pin HIGH ;; delay 100 ;;
                digitalWrite pin LOW ;; delay 100) _ s tt eq_refl).
    rewrite IH. cbn. repeat rewrite <- app_assoc. cbn [app].
    replace (clock s + 100 + 100) with (clock s + 200) by lia.
    reflexivity.
Qed.

Lemma checkFirmwareVersion_runs_migration (s : Device) :
  nvs_system_flags s !! VERSION_KEY <> Some FIRMWARE_VERSION ->
  checkFirmwareVersion s = migration s.
Proof.
  intros Hmis. unfold checkFirmwareVersion, getString.
  rewrite bind_gets. cbn [get_nvs].
  destruct (String.eqb_spec (default "" (nvs_system_flags s !! VERSION_KEY))
              FIRMWARE_VERSION) as [E|E]; cbn [negb when].
  - exfalso. apply Hmis.
    destruct (nvs_system_flags s !! VERSION_KEY) as [v|]; simpl in E.
    + now rewrite E.
    + discriminate E.
  - unfold migration. reflexivity.
Qed.

Lemma migration_trace (s : Device) :
  trace (exec migration s) =
    (trace s ++
       (clock s, EvWifiReset) :: (clock s, EvPinMode DEFAULT_LED_PIN OUTPUT) ::
       blink_trace 10 DEFAULT_LED_PIN (clock s))%list.
Proof.
  unfold migration.
  rewrite (bind_ret_exec (clear iot_config) _ s tt eq_refl).
  rewrite (bind_ret_exec wifi_resetSettings _ _ tt eq_refl).
  rewrite (bind_ret_exec (putString system_flags VERSION_KEY FIRMWARE_VERSION)
             _ _ tt eq_refl).
  rewrite (bind_ret_exec (pinMode DEFAULT_LED_PIN OUTPUT) _ _ tt eq_refl).
  rewrite (blink_n DEFAULT_LED_PIN 10).
  cbn [exec snd clear wifi_resetSettings putString pinMode emit modify bind
       trace clock set_trace set_nvs set_wifi_saved].
  now rewrite <- !app_assoc.
Qed.

(** X3. A migration (stored version differs) forgets the network
    association, makes the default LED pin an output and blinks it ten
    times, 100 ms on and 100 ms off, and records nothing else: 2000 ms in
    all, after which that pin is LOW.  It leaves the configuration globals
    as they were, touches no other pin, keeps every other key of the
    system-flags namespace, and changes neither the latch nor the
    connection. *)
Theorem checkFirmwareVersion_migration_frame (s : Device) :
  nvs_system_flags s !! VERSION_KEY <> Some FIRMWARE_VERSION ->
  let s' := exec checkFirmwareVersion s in
  cfg s' = cfg s /\
  clock s' = clock s + 2000 /\
  pins s' DEFAULT_LED_PIN = LOW /\
  (forall q, q <> DEFAULT_LED_PIN -> pins s' q = pins s q) /\
  (forall key, key <> VERSION_KEY ->
     nvs_system_flags s' !! key = nvs_system_flags s !! key) /\
  firstMessageSent s' = firstMessageSent s /\
  connected s' = connected s /\
  trace s' =
    (trace s ++
       (clock s, EvWifiReset) :: (clock s, EvPinMode DEFAULT_LED_PIN OUTPUT) ::
       blink_trace 10 DEFAULT_LED_PIN (clock s))%list.
Proof.
  intros Hmis. cbv zeta.
  rewrite (exec_ext _ _ _ _ (checkFirmwareVersion_runs_migration s Hmis)).
  split; [reflexivity|]. split; [unfold migration, exec; cbn; lia|].
  split; [reflexivity|].
  split; [intros q Hq; unfold migration, exec; cbn;
          now rewrite (proj2 (Z.eqb_neq _ _) Hq)|].
  split; [intros key Hk; unfold migration, exec; cbn;
          apply lookup_insert_ne; congruence|].
  split; [reflexivity|]. split; [reflexivity|].
  exact (migration_trace s).
Qed.

Lemma checkFirmwareVersion_migration_frame_witness :
  clock (exec checkFirmwareVersion upgraded_device) = clock upgraded_device + 2000 /\
  pins (exec checkFirmwareVersion upgraded_device) DEFAULT_LED_PIN = LOW /\
  length (trace (exec checkFirmwareVersion upgraded_device)) = 42%nat.
Proof.
  destruct (checkFirmwareVersion_migration_frame upgraded_device)
    as (_ & T & L & _ & _ & _ & _ & Tr).
  - vm_compute. discriminate.
  - split; [exact T|]. split; [exact L|]. rewrite Tr. reflexivity.
Defined.

(** ** Indicator patterns of the two resets *)

(** X4. The full wipe takes 2000 ms (five on/off blinks of 100 ms each,
    then one second), leaves the configured LED pin LOW and every other
    pin and the configuration globals as they were, and its last recorded
    action is the restart. *)
Theorem clearAllData_indicator (s : Device) :
  let s' := exec clearAllData s in
  clock s' = clock s + 2000 /\
  pins s' (led_gpio s) = LOW /\
  (forall q, q <> led_gpio s -> pins s' q = pins s q) /\
  cfg s' = cfg s /\
  last (trace s') = Some (clock s + 2000, EvRestart).
Proof.
  cbv zeta. unfold led_gpio. split; [cbn; lia|]. split.
  { cbn. now rewrite Z.eqb_refl. }
  split.
  { intros q Hq. cbn. now rewrite (proj2 (Z.eqb_neq _ _) Hq). }
  split; [reflexivity|].
  cbn. rewrite last_snoc. f_equal. f_equal. lia.
Qed.


Lemma toggle_led_run (s : Device) :
  result toggle_led s = Ret tt /\
  cfg (exec toggle_led s) = cfg s /\
  clock (exec toggle_led s) = clock s + 100 /\
  persisted (exec toggle_led s) = persisted s /\
  (forall q, pins (exec toggle_led s) q =
             if Z.eqb q (led_gpio s) then negb (pins s (led_gpio s)) else pins s q).
Proof. repeat split. Qed.

Lemma toggle_led_n (n : nat) :
  forall s,
    result (repeat_n n toggle_led) s = Ret tt /\
    cfg (exec (repeat_n n toggle_led) s) = cfg s /\
    clock (exec (repeat_n n toggle_led) s) = clock s + 100 * Z.of_nat n /\
    (forall q, pins (exec (repeat_n n toggle_led) s) q =
               if Z.eqb q (led_gpio s) && Nat.odd n
               then negb (pins s q) else pins s q).
Proof.
  induction n as [|n IH]; intros s.
  - split; [reflexivity|]. split; [reflexivity|]. split; [cbn; lia|].
    intros q. now rewrite andb_false_r.
  - destruct (toggle_led_run s) as (R & C & T & _ & P).
    cbn [repeat_n].
    rewrite (bind_ret_result toggle_led _ s tt R).
    rewrite (bind_ret_exec toggle_led _ s tt R).
    destruct (IH (exec toggle_led s)) as (R' & C' & T' & P').
    split; [exact R'|]. split; [now rewrite C', C|]. split; [rewrite T', T; lia|].
    intros q. rewrite P', !P. unfold led_gpio at 1. rewrite C.
    fold (led_gpio s). rewrite Nat.odd_succ, <- Nat.negb_odd.
    destruct (Z.eqb_spec q (led_gpio s)) as [->|Hq]; cbn [andb].
    + rewrite ?Z.eqb_refl. destruct (Nat.odd n); cbn [negb andb];
        rewrite ?Z.eqb_refl;
        destruct (pins s (led_gpio s)); reflexivity.
    + destruct (Z.eqb_spec q (led_gpio s)); [contradiction|].
      cbn [andb]. reflexivity.
Qed.

Lemma toggle_led_trace (n : nat) :
  forall s,
    trace (exec (repeat_n n toggle_led) s) =
      (trace s ++
         toggle_trace n (led_gpio s) (pins s (led_gpio s)) (clock s))%list.
Proof.
  induction n as [|n IH]; intros s.
  - cbn. now rewrite app_nil_r.
  - destruct (toggle_led_run s) as (R & C & T & _ & P).
    cbn [repeat_n toggle_trace].
    rewrite (bind_ret_exec toggle_led _ s tt R).
    rewrite IH. unfold led_gpio at 1 2. rewrite C, T. fold (led_gpio s).
    rewrite P, Z.eqb_refl.
    change (trace (exec toggle_led s))
      with ((trace s ++ [(clock s, EvWrite (led_gpio s) (negb (pins s (led_gpio s))))])
              ++ [(clock s, EvDelay 100)])%list.
    repeat rewrite <- app_assoc. reflexivity.
Qed.

Lemma reset_tail_run (s : Device) :
  let m : M unit := (wifi_resetSettings ;; @ESP_restart unit) in
  pins (exec m s) = pins s /\
  clock (exec m s) = clock s /\
  cfg (exec m s) = cfg s /\
  last (trace (exec m s)) = Some (clock s, EvRestart) /\
  trace (exec m s) =
    (trace s ++ [(clock s, EvWifiReset); (clock s, EvRestart)])%list.
Proof.
  cbv zeta. split; [reflexivity|]. split; [reflexivity|]. split; [reflexivity|].
  split; [cbn; now rewrite last_snoc|].
  cbn. now rewrite <- app_assoc.
Qed.

(** X5. The local reset toggles the configured LED pin ten times, 100 ms
    apart, each write the opposite of the level before it, then forgets
    the network association and restarts, and records nothing else.  The
    number of toggles being even, every pin level is afterwards what it
    was before; it takes 1000 ms, leaves the configuration globals alone,
    and its last recorded action is the restart. *)
Theorem resetConfig_indicator (s : Device) :
  let s' := exec resetConfig s in
  (forall q, pins s' q = pins s q) /\
  clock s' = clock s + 1000 /\
  cfg s' = cfg s /\
  last (trace s') = Some (clock s + 1000, EvRestart) /\
  trace s' =
    (trace s ++
       toggle_trace 10 (led_gpio s) (pins s (led_gpio s)) (clock s) ++
       [(clock s + 1000, EvWifiReset); (clock s + 1000, EvRestart)])%list.
Proof.
  cbv zeta.
  change resetConfig
    with (repeat_n 10 toggle_led ;; (wifi_resetSettings ;; @ESP_restart unit)).
  destruct (toggle_led_n 10 s) as (R & C & T & P).
  rewrite (bind_ret_exec (repeat_n 10 toggle_led) _ s tt R).
  destruct (reset_tail_run (exec (repeat_n 10 toggle_led) s))
    as (P' & T' & C' & L' & Tr').
  rewrite P', T', C', L', Tr', T, C, (toggle_led_trace 10 s).
  split; [|split; [lia|split; [reflexivity|split]]].
  - intros q. rewrite P. change (Nat.odd 10) with false.
    now rewrite andb_false_r.
  - f_equal; f_equal; lia.
  - rewrite <- app_assoc. do 2 f_equal.
Qed.

(** ** Messages *)

Lemma published_app (a b : list (Z * Event)) :
  published (a ++ b) = (published a ++ published b)%list.
Proof. unfold published. apply flat_map_app. Qed.

Lemma length_substring_le (n : nat) (s : string) :
  (String.length (String.substring 0 n s) <= n)%nat.
Proof.
  revert s. induction n as [|n IH]; intros [|c r]; simpl; try lia.
  specialize (IH r). lia.
Qed.

Lemma length_status_format (status : string) :
  String.length (status_format status) = (13 + String.length status)%nat.
Proof.
  unfold status_format. rewrite !length_append. cbn. lia.
Qed.

(** X6. While connected, a publish sends exactly one message, to the
    configured topic; the message never exceeds 49 characters (the buffer
    of 50), and for a status of at most 36 characters it is the untruncated
    text [{"status":"<status>"}]. *)
Theorem publishData_message (status : string) (s : Device) :
  connected s = true ->
  let msg := snprintf 50 (status_format status) in
  published (trace (exec (publishData status) s))
    = (published (trace s) ++ [(mqtt_topic (cfg s), msg)])%list /\
  (String.length msg <= 49)%nat /\
  ((String.length status <= 36)%nat -> msg = status_format status).
Proof.
  intros Hc msg. subst msg. split; [|split].
  - unfold exec. rewrite (publishData_connected status s Hc). cbv zeta.
    destruct (startup_poweroff_fires status s); cbn [snd trace set_trace set_clock];
      rewrite published_app; reflexivity.
  - unfold snprintf. apply length_substring_le.
  - intros Hlen. unfold snprintf. apply substring_all.
    rewrite length_status_format. cbn. lia.
Qed.

Lemma publishData_message_witness :
  published (trace (exec (publishData "reconnected") (online_device HIGH))) =
    [("esp32", status_format "reconnected")].
Proof.
  destruct (publishData_message "reconnected" (online_device HIGH)) as (P & _).
  - reflexivity.
  - exact P.
Defined.

(** ** Connecting, continued *)

(** X7. Called on a client that is already connected, [connectMQTT]
    makes no handshake, subscribes to nothing, waits for nothing and
    returns false. *)
Theorem connectMQTT_already_connected (s : Device) :
  connected s = true -> connectMQTT s = (Ret false, s).
Proof.
  intros Hc. unfold connectMQTT. cbn [connectMQTT_loop].
  unfold client_connected. rewrite bind_gets, Hc. reflexivity.
Qed.

Lemma connectMQTT_already_connected_witness :
  connectMQTT steady_device = (Ret false, steady_device).
Proof. apply (connectMQTT_already_connected steady_device). reflexivity. Defined.

Lemma connectMQTT_run (s : Device) :
  connected s = false ->
  connectMQTT s = (Ret (Nat.ltb (failed_handshakes s) 3), after_connect s).
Proof.
  intros Hc. unfold connectMQTT, failed_handshakes, after_connect. cbv zeta.
  rewrite (connectMQTT_loop_step 3 0 s Hc) by lia.
  destruct (handshake s (attempts s)) eqn:E0; [reflexivity|].
  rewrite (connectMQTT_loop_step 2 (0 + 1) (after_failure s))
    by (reflexivity || lia).
  change (handshake (after_failure s) (attempts (after_failure s)))
    with (handshake s (S (attempts s))).
  destruct (handshake s (S (attempts s))) eqn:E1; [reflexivity|].
  rewrite (connectMQTT_loop_step 1 (0 + 1 + 1) (after_failure (after_failure s)))
    by (reflexivity || lia).
  change (handshake (after_failure (after_failure s))
            (attempts (after_failure (after_failure s))))
    with (handshake s (S (S (attempts s)))).
  destruct (handshake s (S (S (attempts s)))) eqn:E2; [reflexivity|].
  change (0 + 1 + 1 + 1) with 3. rewrite connectMQTT_loop_exhausted. reflexivity.
Qed.

(** What a connect attempt leaves alone, and what it changes. *)
Lemma after_connect_frame (s : Device) :
  let n := failed_handshakes s in
  cfg (after_connect s) = cfg s /\
  pins (after_connect s) = pins s /\
  firstMessageSent (after_connect s) = firstMessageSent s /\
  persisted (after_connect s) = persisted s /\
  buttonPressTime (after_connect s) = buttonPressTime s /\
  longPressActive (after_connect s) = longPressActive s /\
  connected (after_connect s) = Nat.ltb n 3 /\
  clock (after_connect s) = clock s + 2000 * Z.of_nat n /\
  published (trace (after_connect s)) = published (trace s).
Proof.
  cbv zeta. unfold failed_handshakes, after_connect. cbv zeta.
  destruct (handshake s (attempts s));
    [| destruct (handshake s (S (attempts s)));
       [| destruct (handshake s (S (S (attempts s))))]].
  all: do 7 (split; [reflexivity|]).
  all: split; [cbn; lia|].
  all: cbn [after_success after_failure trace set_trace set_clock set_connected
            set_attempts clock cfg]; rewrite ?published_app; cbn;
    rewrite ?app_nil_r; reflexivity.
Qed.

Lemma bind_run_eq {A B} (m : M A) (k : A -> M B) (s s1 : Device) (a : A) :
  m s = (Ret a, s1) -> bind m k s = k a s1.
Proof. intros H. unfold bind. now rewrite H. Qed.

Lemma reconnectMQTT_run (s : Device) :
  connected s = false ->
  reconnectMQTT s =
    if Nat.ltb (failed_handshakes s) 3
    then publishData "reconnected" (after_connect s)
    else (Ret tt, after_connect s).
Proof.
  intros Hc. unfold reconnectMQTT.
  rewrite (bind_run_eq _ _ _ _ _ (connectMQTT_run s Hc)).
  destruct (Nat.ltb (failed_handshakes s) 3); reflexivity.
Qed.

(** X8. A reconnection on a disconnected client returns; it ends
    connected exactly when one of the next three handshakes succeeds, and
    then it has published status "reconnected" once and nothing else; when
    all three fail nothing is published.  Pins, latch and persisted state
    are untouched, and it takes 2000 ms per failed handshake. *)
Theorem reconnectMQTT_announces_once (s : Device) :
  connected s = false ->
  let s' := exec reconnectMQTT s in
  let n := failed_handshakes s in
  result reconnectMQTT s = Ret tt /\
  connected s' = Nat.ltb n 3 /\
  published (trace s') =
    (published (trace s) ++
       (if Nat.ltb n 3
        then [(mqtt_topic (cfg s), status_format "reconnected")]
        else []))%list /\
  pins s' = pins s /\
  firstMessageSent s' = firstMessageSent s /\
  persisted s' = persisted s /\
  clock s' = clock s + 2000 * Z.of_nat n.
Proof.
  intros Hc s' n. subst s' n. unfold result, exec.
  rewrite (reconnectMQTT_run s Hc).
  destruct (after_connect_frame s) as (C & P & F & N & _ & _ & K & T & Pub).
  cbv zeta in K, T.
  destruct (Nat.ltb (failed_handshakes s) 3) eqn:E.
  - rewrite publishData_plain by reflexivity. rewrite K. cbn [fst snd].
    change (persisted (set_trace ?t ?d)) with (persisted d).
    cbn [connected set_trace trace pins firstMessageSent clock].
    rewrite published_app, Pub, C, P, F, T, K, N.
    repeat split.
  - cbn [fst snd]. rewrite K, Pub, P, F, T, N, app_nil_r. repeat split.
Qed.

Lemma reconnectMQTT_announces_once_witness :
  connected (exec reconnectMQTT flaky_broker_device) = true /\
  published (trace (exec reconnectMQTT dead_broker_device)) = [].
Proof.
  split.
  - destruct (reconnectMQTT_announces_once flaky_broker_device) as (_ & K & _).
    + reflexivity.
    + exact K.
  - destruct (reconnectMQTT_announces_once dead_broker_device)
      as (_ & _ & P & _).
    + reflexivity.
    + exact P.
Defined.

(** ** The end of [setup] *)


Lemma setup_announce_unfold :
  setup_announce =
    (ok <- connectMQTT ;;
     when ok (publishData "system_startup" ;; delay 500 ;; announce_decide)).
Proof. reflexivity. Qed.

Lemma present_button_run (b : bool) (s : Device) :
  present_button b s =
    (Ret tt,
     set_pins (fun q => if Z.eqb q (button_gpio s) then b else pins s q) s).
Proof. reflexivity. Qed.

Lemma announce_tail_sampled_run (b1 b2 : bool) (s : Device) :
  connected s = true -> firstMessageSent s = false ->
  button_gpio s <> power_gpio s ->
  let m := announce_tail_sampled b1 b2 in
  result m s =
    (if Bool.eqb b1 HIGH && Bool.eqb b2 HIGH then Halt DeepSleep else Ret tt) /\
  pins (exec m s) (power_gpio s) =
    (if Bool.eqb b1 HIGH then LOW else pins s (power_gpio s)) /\
  firstMessageSent (exec m s) = Bool.eqb b1 HIGH /\
  published (trace (exec m s)) =
    (published (trace s) ++
       [(mqtt_topic (cfg s), status_format "system_startup")])%list.
Proof.
  intros Hc Hf Hne. cbv zeta. unfold announce_tail_sampled, result, exec.
  rewrite (bind_run_eq _ _ _ _ _ (present_button_run b1 s)).
  set (s1 := set_pins (fun q => if Z.eqb q (button_gpio s) then b1 else pins s q) s).
  assert (Hc1 : connected s1 = true) by exact Hc.
  pose proof (publishData_connected "system_startup" s1 Hc1) as Hp.
  cbv zeta in Hp. unfold startup_poweroff_fires in Hp.
  change (firstMessageSent s1) with (firstMessageSent s) in Hp.
  change (button_gpio s1) with (button_gpio s) in Hp.
  change (pins s1 (button_gpio s))
    with (if Z.eqb (button_gpio s) (button_gpio s) then b1 else pins s (button_gpio s)) in Hp.
  rewrite Hc1, Hf, Z.eqb_refl in Hp.
  change (snprintf 50 (status_format "system_startup"))
    with (status_format "system_startup") in Hp.
  change (strcmp_eq "system_startup" "system_startup") with true in Hp.
  cbn [negb andb] in Hp.
  assert (Hpw : Z.eqb (power_gpio s) (button_gpio s) = false).
  { apply Z.eqb_neq. congruence. }
  destruct b1; cbn [Bool.eqb andb] in Hp |- *.
  - rewrite (bind_run_eq _ _ _ _ _ Hp).
    subst s1. unfold announce_decide, present_button. unfold_prims. cbn.
    unfold button_gpio, power_gpio in *. cbn.
    rewrite !Z.eqb_refl.
    destruct b2; cbn; rewrite ?Z.eqb_refl, Hpw.
    + split; [reflexivity|]. split; [reflexivity|]. split; [reflexivity|].
      rewrite !published_app. cbn. now rewrite !app_nil_r.
    + split; [reflexivity|]. split; [reflexivity|]. split; [reflexivity|].
      rewrite !published_app. cbn. now rewrite !app_nil_r.
  - rewrite (bind_run_eq _ _ _ _ _ Hp).
    subst s1. unfold announce_decide, present_button. unfold_prims. cbn.
    unfold button_gpio, power_gpio in *. cbn.
    rewrite Hf. cbn. rewrite Hpw.
    split; [reflexivity|]. split; [reflexivity|]. split; [exact Hf|].
    rewrite !published_app. cbn. now rewrite !app_nil_r.
Qed.

(** X9. The end of [setup], on a disconnected client with the latch clear
    and a button pin other than the power pin, where the button input
    reads [b1] when the startup message is published and [b2] when the
    sleep decision is taken: the device enters deep sleep exactly when the
    connect succeeds and both reads are HIGH; when the connect succeeds
    and the first read is HIGH the power output ends LOW and the latch
    set, whether or not the device then sleeps (a press between the two
    reads leaves it awake with the power off); when the connect fails or
    the first read is LOW the power output and the latch are untouched;
    the startup message is published once when the connect succeeds and
    not at all when it fails. *)
Theorem setup_announce_sleep (s : Device) (b1 b2 : bool) :
  connected s = false -> firstMessageSent s = false ->
  button_gpio s <> power_gpio s ->
  let m := setup_announce_sampled b1 b2 in
  let s' := exec m s in
  let ok := Nat.ltb (failed_handshakes s) 3 in
  result m s =
    (if ok && Bool.eqb b1 HIGH && Bool.eqb b2 HIGH
     then Halt DeepSleep else Ret tt) /\
  (ok && Bool.eqb b1 HIGH = true ->
     pins s' (power_gpio s) = LOW /\ firstMessageSent s' = true) /\
  (ok && Bool.eqb b1 HIGH = false ->
     pins s' (power_gpio s) = pins s (power_gpio s) /\
     firstMessageSent s' = false) /\
  published (trace s') =
    (published (trace s) ++
       (if ok
        then [(mqtt_topic (cfg s), status_format "system_startup")]
        else []))%list.
Proof.
  intros Hc Hf Hne. cbv zeta. unfold setup_announce_sampled, result, exec.
  rewrite (bind_run_eq _ _ _ _ _ (connectMQTT_run s Hc)).
  destruct (after_connect_frame s) as (C & P & F & _ & _ & _ & K & _ & Pub).
  cbv zeta in K.
  destruct (Nat.ltb (failed_handshakes s) 3) eqn:E; cbn [when andb].
  - assert (Hne' : button_gpio (after_connect s) <> power_gpio (after_connect s)).
    { unfold button_gpio, power_gpio in *. now rewrite C. }
    destruct (announce_tail_sampled_run b1 b2 (after_connect s) K
                (eq_trans F Hf) Hne') as (R & S & L & T).
    cbv zeta in R, S, L, T. unfold power_gpio in *.
    rewrite C, P in S. rewrite C, Pub in T.
    unfold result, exec in R, S, L, T.
    split; [exact R|].
    split; [intros Hb; rewrite Hb in S, L; split; [exact S|exact L]|].
    split; [intros Hb; rewrite Hb in S, L; split; [exact S|exact L]|].
    exact T.
  - cbn [ret fst snd]. split; [reflexivity|]. split; [discriminate|].
    split; [intros _; split; [now rewrite P|now rewrite F]|].
    rewrite Pub. now rewrite app_nil_r.
Qed.

Lemma setup_announce_sleep_witness :
  result (setup_announce_sampled HIGH HIGH) current_device = Halt DeepSleep /\
  result (setup_announce_sampled HIGH LOW) current_device = Ret tt /\
  pins (exec (setup_announce_sampled HIGH LOW) current_device) 7 = LOW.
Proof.
  split; [|split].
  - destruct (setup_announce_sleep current_device HIGH HIGH) as (R & _).
    + reflexivity.
    + reflexivity.
    + vm_compute. discriminate.
    + exact R.
  - destruct (setup_announce_sleep current_device HIGH LOW) as (R & _).
    + reflexivity.
    + reflexivity.
    + vm_compute. discriminate.
    + exact R.
  - destruct (setup_announce_sleep current_device HIGH LOW) as (_ & S & _).
    + reflexivity.
    + reflexivity.
    + vm_compute. discriminate.
    + apply S. reflexivity.
Defined.

(** ** What the loop leaves alone *)


Section KeepsOnReturn.
Context (P : Device -> Prop).

Lemma kr_ret {A} (a : A) : keeps_on_return P (ret a).
Proof. intros s b H _. exact H. Qed.

Lemma kr_gets {A} (f : Device -> A) : keeps_on_return P (gets f).
Proof. intros s b H _. exact H. Qed.

Lemma kr_modify (f : Device -> Device) :
  (forall s, P s -> P (f s)) -> keeps_on_return P (modify f).
Proof. intros Hf s b H _. apply Hf, H. Qed.

Lemma kr_halting {A} (m : M A) :
  (forall s, exists h, result m s = Halt h) -> keeps_on_return P m.
Proof. intros Hh s a _ R. destruct (Hh s) as [h E]. rewrite E in R. discriminate R. Qed.

Lemma kr_bind {A B} (m : M A) (k : A -> M B) :
  keeps_on_return P m -> (forall a, keeps_on_return P (k a)) ->
  keeps_on_return P (bind m k).
Proof.
  intros Hm Hk s b H. unfold result, exec, bind.
  specialize (Hm s). unfold result, exec in Hm.
  destruct (m s) as [[a|h] s1]; cbn [fst snd] in *.
  - apply (Hk a s1 b). apply (Hm a H eq_refl).
  - discriminate.
Qed.

Lemma kr_when (b : bool) (m : M unit) :
  keeps_on_return P m -> keeps_on_return P (when b m).
Proof. intros Hm. destruct b; [exact Hm | apply kr_ret]. Qed.

End KeepsOnReturn.

Ltac kr_step :=
  match goal with
  | |- keeps_on_return _ (bind _ _) => apply kr_bind; [|intros ?]
  | |- keeps_on_return _ (ret _) => apply kr_ret
  | |- keeps_on_return _ (gets _) => apply kr_gets
  | |- keeps_on_return _ (when _ _) => apply kr_when
  | |- keeps_on_return _ (modify _) => apply kr_modify; intros ? ?; try assumption
  | |- keeps_on_return _ (if ?b then _ else _) => destruct b
  | |- keeps_on_return _ (let _ := _ in _) => cbv zeta
  | |- keeps_on_return _ (match ?x with Some _ => _ | None => _ end) => destruct x
  | |- keeps_on_return _ (match ?x with (_, _) => _ end) => destruct x
  end.

Ltac kr_auto := keeps_prims; repeat kr_step.


Lemma kr_client_connect (s0 : Device) (id user pass : string) :
  keeps_on_return (settled s0) (client_connect id user pass).
Proof. intros s a H _. exact H. Qed.

Lemma kr_publishData (s0 : Device) (status : string) :
  keeps_on_return (settled s0) (publishData status).
Proof. unfold publishData. kr_auto. Qed.

Lemma kr_connectMQTT_loop (s0 : Device) (fuel : nat) :
  forall retry, keeps_on_return (settled s0) (connectMQTT_loop fuel retry).
Proof.
  induction fuel as [|fuel IH]; intros retry; cbn [connectMQTT_loop].
  - apply kr_ret.
  - kr_auto.
    + apply kr_client_connect.
    + apply IH.
Qed.

Lemma kr_resetConfig (s0 : Device) : keeps_on_return (settled s0) resetConfig.
Proof.
  apply kr_halting. intros s. exists Restarted.
  apply resetConfig_forgets_wifi_only.
Qed.

Lemma kr_clearAllData (s0 : Device) : keeps_on_return (settled s0) clearAllData.
Proof.
  apply kr_halting. intros s. exists Restarted. apply clearAllData_wipes.
Qed.

Lemma kr_callback (s0 : Device) (topic : string) (payload : list ascii) :
  keeps_on_return (settled s0) (callback topic payload).
Proof.
  unfold callback. kr_auto.
  - exact (kr_clearAllData s0).
  - exact (kr_publishData s0 "on").
  - exact (kr_publishData s0 "off").
Qed.

Lemma kr_checkResetButton (s0 : Device) :
  keeps_on_return (settled s0) checkResetButton.
Proof. unfold checkResetButton. kr_auto. exact (kr_resetConfig s0). Qed.

Lemma kr_reconnectMQTT (s0 : Device) :
  keeps_on_return (settled s0) reconnectMQTT.
Proof.
  unfold reconnectMQTT, connectMQTT. kr_auto.
  - apply kr_connectMQTT_loop.
  - exact (kr_publishData s0 "reconnected").
Qed.

(** X13. An iteration of the loop that returns has changed neither the
    configuration globals nor the two namespaces nor the stored network
    association, whatever message arrived and whether or not it had to
    reconnect. *)
Theorem loop_never_writes_store (inbound : option (string * list ascii))
    (s : Device) :
  result (loop inbound) s = Ret tt ->
  cfg (exec (loop inbound) s) = cfg s /\
  nvs_iot_config (exec (loop inbound) s) = nvs_iot_config s /\
  nvs_system_flags (exec (loop inbound) s) = nvs_system_flags s /\
  wifi_saved (exec (loop inbound) s) = wifi_saved s.
Proof.
  intros R.
  assert (K : keeps_on_return (settled s) (loop inbound)).
  { unfold loop, client_loop. kr_auto.
    - exact (kr_checkResetButton s).
    - exact (kr_reconnectMQTT s).
    - apply kr_callback. }
  destruct (K s tt (conj eq_refl eq_refl) R) as [C P].
  unfold persisted in P. inversion P. repeat split; assumption.
Qed.

Lemma loop_never_writes_store_witness :
  nvs_iot_config
    (exec (loop (Some ("esp32/control", list_ascii_of_string "off"))) steady_device)
  = nvs_iot_config steady_device.
Proof.
  apply (loop_never_writes_store
           (Some ("esp32/control", list_ascii_of_string "off")) steady_device).
  vm_compute. reflexivity.
Defined.

Lemma reconnectMQTT_state (s : Device) :
  connected s = false ->
  reconnectMQTT s =
    (Ret tt,
     if Nat.ltb (failed_handshakes s) 3
     then set_trace
            (trace (after_connect s) ++
               [(clock (after_connect s),
                 EvPublish (mqtt_topic (cfg s)) (status_format "reconnected"))])
            (after_connect s)
     else after_connect s).
Proof.
  intros Hc. rewrite (reconnectMQTT_run s Hc).
  destruct (after_connect_frame s) as (C & _ & _ & _ & _ & _ & K & _).
  cbv zeta in K.
  destruct (Nat.ltb (failed_handshakes s) 3); [|reflexivity].
  rewrite publishData_plain by reflexivity. rewrite K, C. reflexivity.
Qed.

(** X12. An iteration of the loop on a disconnected client with the
    button released and no inbound message returns; it ends connected
    exactly when one of the next three handshakes succeeds and has then
    published "reconnected" once; it lasts 2000 ms per failed handshake
    plus the 100 ms loop delay and changes no pin. *)
Theorem loop_reconnect_iteration (s : Device) :
  connected s = false ->
  pins s (button_gpio s) = HIGH ->
  let s' := exec (loop None) s in
  let n := failed_handshakes s in
  result (loop None) s = Ret tt /\
  connected s' = Nat.ltb n 3 /\
  published (trace s') =
    (published (trace s) ++
       (if Nat.ltb n 3
        then [(mqtt_topic (cfg s), status_format "reconnected")]
        else []))%list /\
  clock s' = clock s + 2000 * Z.of_nat n + 100 /\
  pins s' = pins s.
Proof.
  intros Hc Hb. cbv zeta.
  set (s0 := set_longPressActive false (set_buttonPressTime 0 s)).
  assert (Hc0 : connected s0 = false) by exact Hc.
  assert (Hloop : loop None s =
                  (delay 100) (snd (reconnectMQTT s0))).
  { unfold loop.
    rewrite (bind_run_eq _ _ _ _ _ (checkResetButton_released s Hb)).
    fold s0.
    assert (Hq : client_connected s0 = (Ret false, s0)).
    { unfold client_connected, gets. now rewrite Hc0. }
    rewrite (bind_run_eq _ _ _ _ _ Hq). cbn [negb when].
    rewrite (bind_run_eq _ _ _ _ _ (reconnectMQTT_state s0 Hc0)).
    rewrite (reconnectMQTT_state s0 Hc0). cbn [snd].
    assert (Hcl : forall x, client_loop None x = (Ret tt, x)) by reflexivity.
    exact (bind_run_eq (client_loop None) (fun _ => delay 100) _ _ tt (Hcl _)). }
  rewrite (result_ext _ (delay 100) _ _ Hloop), (exec_ext _ (delay 100) _ _ Hloop).
  rewrite (reconnectMQTT_state s0 Hc0). cbn [snd].
  destruct (after_connect_frame s0) as (C & P & _ & _ & _ & _ & K & T & Pub).
  cbv zeta in K, T.
  change (failed_handshakes s0) with (failed_handshakes s) in *.
  change (cfg s0) with (cfg s) in *. change (pins s0) with (pins s) in *.
  change (clock s0) with (clock s) in *. change (trace s0) with (trace s) in *.
  destruct (Nat.ltb (failed_handshakes s) 3).
  - split; [reflexivity|].
    cbn [exec delay emit modify bind snd fst connected set_clock set_trace trace
         clock pins].
    rewrite !published_app, Pub, K, T, P. cbn [published flat_map snd app].
    rewrite !app_nil_r. repeat split.
  - split; [reflexivity|].
    cbn [exec delay emit modify bind snd fst connected set_clock set_trace trace
         clock pins].
    rewrite !published_app, Pub, K, T, P. cbn [published flat_map snd app].
    rewrite !app_nil_r. repeat split.
Qed.

Lemma loop_reconnect_iteration_witness :
  connected (exec (loop None) flaky_broker_device) = true /\
  clock (exec (loop None) flaky_broker_device) = 2100.
Proof.
  destruct (loop_reconnect_iteration flaky_broker_device) as (_ & K & _ & T & _).
  - reflexivity.
  - reflexivity.
  - split; [exact K | exact T].
Defined.


(** ** The steady-state loop *)

Section HaltsForgetting.

Lemma hf_ret {A} (a : A) : halts_forgetting (ret a).
Proof. intros s h H. discriminate H. Qed.

Lemma hf_gets {A} (f : Device -> A) : halts_forgetting (gets f).
Proof. intros s h H. discriminate H. Qed.

Lemma hf_modify (f : Device -> Device) : halts_forgetting (modify f).
Proof. intros s h H. discriminate H. Qed.

Lemma hf_bind {A B} (m : M A) (k : A -> M B) :
  halts_forgetting m -> (forall a, halts_forgetting (k a)) ->
  halts_forgetting (bind m k).
Proof.
  intros Hm Hk s h. unfold result, exec, bind.
  specialize (Hm s). unfold result, exec in Hm.
  destruct (m s) as [[a|h'] s1]; cbn [fst snd] in *.
  - apply (Hk a s1).
  - intros E. injection E as <-. apply Hm. reflexivity.
Qed.

Lemma hf_when (b : bool) (m : M unit) :
  halts_forgetting m -> halts_forgetting (when b m).
Proof. intros Hm. destruct b; [exact Hm | apply hf_ret]. Qed.

Lemma hf_repeat_n (n : nat) (body : M unit) :
  halts_forgetting body -> halts_forgetting (repeat_n n body).
Proof.
  intros Hb. induction n as [|n IH]; cbn [repeat_n].
  - apply hf_ret.
  - apply hf_bind; [exact Hb | intros _; exact IH].
Qed.

End HaltsForgetting.

Ltac hf_step :=
  match goal with
  | |- halts_forgetting (bind _ _) => apply hf_bind; [|intros ?]
  | |- halts_forgetting (ret _) => apply hf_ret
  | |- halts_forgetting (gets _) => apply hf_gets
  | |- halts_forgetting (when _ _) => apply hf_when
  | |- halts_forgetting (repeat_n _ _) => apply hf_repeat_n
  | |- halts_forgetting (modify _) => apply hf_modify
  | |- halts_forgetting (if ?b then _ else _) => destruct b
  | |- halts_forgetting (let _ := _ in _) => cbv zeta
  | |- halts_forgetting (match ?x with Some _ => _ | None => _ end) => destruct x
  | |- halts_forgetting (match ?x with (_, _) => _ end) => destruct x
  end.

Ltac hf_auto := keeps_prims; repeat hf_step.

Lemma hf_client_connect (id user pass : string) :
  halts_forgetting (client_connect id user pass).
Proof. intros s h H. discriminate H. Qed.

Lemma hf_publishData (status : string) : halts_forgetting (publishData status).
Proof. unfold publishData. hf_auto. Qed.

Lemma hf_connectMQTT_loop (fuel : nat) :
  forall retry, halts_forgetting (connectMQTT_loop fuel retry).
Proof.
  induction fuel as [|fuel IH]; intros retry; cbn [connectMQTT_loop].
  - apply hf_ret.
  - hf_auto.
    + apply hf_client_connect.
    + apply IH.
Qed.

Lemma hf_resetConfig : halts_forgetting resetConfig.
Proof.
  intros s h H.
  destruct (resetConfig_forgets_wifi_only s) as (R & W & _).
  rewrite R in H. injection H as <-. split; [reflexivity | exact W].
Qed.

Lemma hf_clearAllData : halts_forgetting clearAllData.
Proof.
  intros s h H.
  destruct (clearAllData_wipes s) as (R & _ & _ & W).
  rewrite R in H. injection H as <-. split; [reflexivity | exact W].
Qed.

Lemma hf_callback (topic : string) (payload : list ascii) :
  halts_forgetting (callback topic payload).
Proof.
  unfold callback. hf_auto.
  - exact hf_clearAllData.
  - exact (hf_publishData "on").
  - exact (hf_publishData "off").
Qed.

Lemma hf_checkResetButton : halts_forgetting checkResetButton.
Proof. unfold checkResetButton. hf_auto. exact hf_resetConfig. Qed.

Lemma hf_reconnectMQTT : halts_forgetting reconnectMQTT.
Proof.
  unfold reconnectMQTT, connectMQTT. hf_auto.
  - apply hf_connectMQTT_loop.
  - exact (hf_publishData "reconnected").
Qed.

(** X10. The loop never enters deep sleep: an iteration that does not
    return has restarted the device, with the network association
    forgotten. *)
Theorem loop_halts_only_by_restart (inbound : option (string * list ascii))
    (s : Device) (h : HaltKind) :
  result (loop inbound) s = Halt h ->
  h = Restarted /\ wifi_saved (exec (loop inbound) s) = false.
Proof.
  revert s h. change (halts_forgetting (loop inbound)).
  unfold loop, client_loop. hf_auto.
  - exact hf_checkResetButton.
  - exact hf_reconnectMQTT.
  - apply hf_callback.
Qed.

Lemma loop_halts_only_by_restart_witness :
  wifi_saved
    (exec (loop (Some ("esp32/control", list_ascii_of_string "clear_all_data")))
       steady_device) = false.
Proof.
  apply (loop_halts_only_by_restart
           (Some ("esp32/control", list_ascii_of_string "clear_all_data"))
           steady_device Restarted).
  vm_compute. reflexivity.
Defined.

Lemma client_loop_ignored (inbound : option (string * list ascii)) (s : Device) :
  (forall topic payload, inbound = Some (topic, payload) ->
     c_str payload <> "clear_all_data" /\
     c_str payload <> "on" /\ c_str payload <> "off") ->
  client_loop inbound s = (Ret tt, s).
Proof.
  intros Hin. unfold client_loop, client_connected. rewrite bind_gets.
  destruct inbound as [[topic payload]|]; [|reflexivity].
  destruct (Hin topic payload eq_refl) as (H1 & H2 & H3).
  destruct (connected s); cbn [when]; [|reflexivity].
  apply callback_other; assumption.
Qed.

(** X11. An iteration of the loop on a connected client with the button
    released, and no inbound message or one that is none of the three
    commands, only clears the press session and waits 100 ms: the state it
    leaves differs from the one it found in nothing else. *)
Theorem loop_idle_iteration (inbound : option (string * list ascii)) (s : Device) :
  connected s = true ->
  pins s (button_gpio s) = HIGH ->
  (forall topic payload, inbound = Some (topic, payload) ->
     c_str payload <> "clear_all_data" /\
     c_str payload <> "on" /\ c_str payload <> "off") ->
  loop inbound s =
    (Ret tt,
     set_clock (clock s + 100)
       (set_trace (trace s ++ [(clock s, EvDelay 100)])
          (set_longPressActive false (set_buttonPressTime 0 s)))).
Proof.
  intros Hc Hb Hin. unfold loop.
  rewrite (bind_run_eq _ _ _ _ _ (checkResetButton_released s Hb)).
  set (s0 := set_longPressActive false (set_buttonPressTime 0 s)).
  assert (Hc0 : client_connected s0 = (Ret true, s0)).
  { unfold client_connected, gets. cbn. now rewrite Hc. }
  rewrite (bind_run_eq _ _ _ _ _ Hc0). cbn [negb when].
  rewrite (bind_run_eq (ret tt) _ s0 s0 tt eq_refl).
  rewrite (bind_run_eq _ _ _ _ _ (client_loop_ignored inbound s0 Hin)).
  reflexivity.
Qed.

Lemma loop_idle_iteration_witness :
  loop None steady_device =
    (Ret tt,
     set_clock (clock steady_device + 100)
       (set_trace (trace steady_device ++ [(clock steady_device, EvDelay 100)])
          (set_longPressActive false (set_buttonPressTime 0 steady_device)))).
Proof.
  apply (loop_idle_iteration None steady_device).
  - reflexivity.
  - reflexivity.
  - intros topic payload E. discriminate E.
Defined.

(** ** The long-press monitor and the [millis] counter *)

Lemma elapsed_exact (t0 t : Z) :
  0 <= t - t0 < ULONG_MOD -> elapsed t0 t = t - t0.
Proof.
  intros H. unfold elapsed, to_ulong.
  rewrite <- Zminus_mod. apply Z.mod_small. exact H.
Qed.

(** X14. The press timer survives the wrap-around of [millis]: for a
    press recorded at a non-zero instant and sampled less than 2^32 ms
    later, also across the wrap, the reset fires when the true elapsed
    time exceeds 5000 ms and the press session is kept when it does not. *)
Theorem long_press_across_wrap (s : Device) (t0 t : Z) :
  buttonPressTime s = to_ulong t0 ->
  to_ulong t0 <> 0 ->
  longPressActive s = false ->
  0 <= t - t0 < ULONG_MOD ->
  (RESET_HOLD_TIME < t - t0 ->
     result (sample (mkSample LOW t)) s = Halt Restarted) /\
  (t - t0 <= RESET_HOLD_TIME ->
     result (sample (mkSample LOW t)) s = Ret tt /\
     buttonPressTime (exec (sample (mkSample LOW t)) s) = to_ulong t0 /\
     longPressActive (exec (sample (mkSample LOW t)) s) = false).
Proof.
  intros Hb Hnz Hl Hr. pose proof (elapsed_exact t0 t Hr) as He.
  unfold elapsed in He. split; intros Hcmp.
  - apply (sample_hold_beyond (to_ulong t0) t s Hb Hnz Hl). rewrite He. exact Hcmp.
  - destruct (sample_hold_below (to_ulong t0) t s Hb Hnz Hl) as (R & B & L & _).
    + rewrite He. exact Hcmp.
    + split; [exact R|]. split; [exact B|exact L].
Qed.

Lemma long_press_across_wrap_witness :
  result (sample (mkSample LOW 4294971297))
    (set_buttonPressTime 4294966296 offline_device) = Halt Restarted.
Proof.
  apply (long_press_across_wrap
           (set_buttonPressTime 4294966296 offline_device) 4294966296 4294971297).
  - vm_compute. reflexivity.
  - vm_compute. discriminate.
  - reflexivity.
  - vm_compute. split; [discriminate|reflexivity].
  - vm_compute. reflexivity.
Defined.

(** X15. A press first sampled when [millis] reads 0 is not recorded:
    the session stays empty, and the press is timed from its next sample
    on, from which it triggers the reset after more than 5000 ms. *)
Theorem press_at_millis_zero (s : Device) (t0 : Z) :
  idle s -> to_ulong t0 = 0 ->
  (result (sample (mkSample LOW t0)) s = Ret tt /\
   idle (exec (sample (mkSample LOW t0)) s) /\
   quiet s (exec (sample (mkSample LOW t0)) s)) /\
  (forall t1 ts t rest,
     to_ulong t1 <> 0 ->
     Forall (fun u => elapsed t1 u <= RESET_HOLD_TIME) ts ->
     RESET_HOLD_TIME < elapsed t1 t ->
     result (run_samples (mkSample LOW t0 :: held t1 ts ++ mkSample LOW t :: rest)) s
       = Halt Restarted).
Proof.
  intros Hidle Hz.
  destruct (sample_press_start t0 s Hidle) as (R & B & L & Q).
  rewrite Hz in B.
  assert (Hidle' : idle (exec (sample (mkSample LOW t0)) s)) by (split; assumption).
  split; [split; [exact R|split; [exact Hidle'|exact Q]]|].
  intros t1 ts t rest Hnz Hall Hgt.
  destruct (press_below_run t1 ts _ Hidle' Hnz Hall) as (s2 & Hrun & B2 & L2 & _).
  destruct (sample_hold_beyond (to_ulong t1) t s2 B2 Hnz L2 Hgt) as (R3 & _).
  pose proof (eq_trans (run_samples_cons_ret _ _ _ R)
                (eq_trans (Hrun _) (run_samples_cons_halt _ rest _ _ R3))) as E.
  rewrite (result_ext _ (halt Restarted) _ _ E). reflexivity.
Qed.

Lemma press_at_millis_zero_witness :
  idle (exec (sample (mkSample LOW 4294967296)) offline_device) /\
  result (run_samples (mkSample LOW 4294967296 ::
                       held 4294967396 [4294968396] ++ [mkSample LOW 4294972397]))
    offline_device = Halt Restarted.
Proof.
  destruct (press_at_millis_zero offline_device 4294967296) as ((_ & I & _) & Hrun).
  - split; reflexivity.
  - vm_compute. reflexivity.
  - split; [exact I|].
    apply (Hrun 4294967396 [4294968396] 4294972397 []).
    + vm_compute. discriminate.
    + repeat constructor; vm_compute; discriminate.
    + vm_compute. reflexivity.
Defined.


(** ** Saving, continued *)


Lemma saved_store_holds (c : Config) (m : gmap string string) :
  holds_config (saved_store c m) c.
Proof. unfold holds_config, saved_store. repeat split; saved_lookup. Qed.

Lemma saved_store_other (c : Config) (m : gmap string string) (key : string) :
  ~ In key config_keys -> saved_store c m !! key = m !! key.
Proof.
  intros Hk. unfold saved_store.
  repeat (rewrite lookup_insert_ne;
          [|intros <-; apply Hk; unfold config_keys; simpl; tauto]).
  reflexivity.
Qed.

Lemma saved_store_again (c : Config) (m : gmap string string) :
  saved_store c (saved_store c m) = saved_store c m.
Proof.
  destruct (saved_store_holds c m) as (Ks & Kpo & Ku & Kpw & Kt & Kb & Kl & Kp).
  unfold saved_store at 1.
  rewrite (insert_id _ _ _ Ks), (insert_id _ _ _ Kpo), (insert_id _ _ _ Ku),
    (insert_id _ _ _ Kpw), (insert_id _ _ _ Kt), (insert_id _ _ _ Kb),
    (insert_id _ _ _ Kl), (insert_id _ _ _ Kp).
  reflexivity.
Qed.

Lemma save_config_store (s : Device) :
  save_config s = (Ret tt, set_nvs iot_config (saved_store (cfg s) (nvs_iot_config s)) s).
Proof. reflexivity. Qed.

(** X16. A save returns, writes the eight configuration keys only (every
    other key of the operational-config namespace, the system-flags
    namespace, the network association and the globals are kept), and is
    idempotent: saving again changes nothing. *)
Theorem save_config_frame (s : Device) :
  let s' := exec save_config s in
  result save_config s = Ret tt /\
  (forall key, ~ In key config_keys ->
     nvs_iot_config s' !! key = nvs_iot_config s !! key) /\
  nvs_system_flags s' = nvs_system_flags s /\
  wifi_saved s' = wifi_saved s /\
  cfg s' = cfg s /\
  exec save_config s' = s'.
Proof.
  cbv zeta. unfold result, exec. rewrite save_config_store. cbn [fst snd].
  split; [reflexivity|]. split.
  { intros key Hk. cbn [nvs_iot_config set_nvs]. apply saved_store_other, Hk. }
  do 3 (split; [reflexivity|]).
  rewrite save_config_store. cbn [snd cfg set_nvs nvs_iot_config].
  rewrite saved_store_again. reflexivity.
Qed.


Lemma reinit_pins_run (s : Device) :
  let s' := exec reinit_pins s in
  result reinit_pins s = Ret tt /\
  cfg s' = cfg s /\
  nvs_iot_config s' = nvs_iot_config s /\
  nvs_system_flags s' = nvs_system_flags s /\
  pins s' (power_gpio s) = HIGH /\
  (led_gpio s <> power_gpio s -> pins s' (led_gpio s) = LOW) /\
  (forall q, q <> led_gpio s -> q <> power_gpio s -> pins s' q = pins s q).
Proof.
  cbv zeta. unfold led_gpio, power_gpio.
  do 4 (split; [reflexivity|]).
  split; [cbn; now rewrite Z.eqb_refl|]. split.
  - intros Hne. cbn. rewrite (proj2 (Z.eqb_neq _ _) Hne). now rewrite Z.eqb_refl.
  - intros q Hl Hp. cbn.
    now rewrite (proj2 (Z.eqb_neq _ _) Hl), (proj2 (Z.eqb_neq _ _) Hp).
Qed.

(** X17. The save block of [setup] is gated on the portal's save flag:
    with the flag clear it changes nothing at all; with the flag set it
    returns with the store holding the in-memory configuration, the power
    output HIGH on the configured pin, the LED LOW when it is another pin,
    and every pin other than these two (a former power pin included) as it
    was. *)
Theorem setup_save_gated (s : Device) :
  (shouldSaveConfig s = false -> setup_save s = (Ret tt, s)) /\
  (shouldSaveConfig s = true ->
     let s' := exec setup_save s in
     result setup_save s = Ret tt /\
     holds_config (nvs_iot_config s') (cfg s) /\
     cfg s' = cfg s /\
     nvs_system_flags s' = nvs_system_flags s /\
     pins s' (power_gpio s) = HIGH /\
     (led_gpio s <> power_gpio s -> pins s' (led_gpio s) = LOW) /\
     (forall q, q <> led_gpio s -> q <> power_gpio s -> pins s' q = pins s q)).
Proof.
  split; intros Hflag.
  - unfold setup_save. rewrite bind_gets, Hflag. reflexivity.
  - cbv zeta.
    assert (Hrun : setup_save s =
                   reinit_pins (set_nvs iot_config
                                  (saved_store (cfg s) (nvs_iot_config s)) s)).
    { unfold setup_save. rewrite bind_gets, Hflag. cbn [when].
      exact (bind_run_eq save_config (fun _ => reinit_pins) _ _ tt
               (save_config_store s)). }
    rewrite (result_ext _ _ _ _ Hrun), (exec_ext _ _ _ _ Hrun).
    destruct (reinit_pins_run
                (set_nvs iot_config (saved_store (cfg s) (nvs_iot_config s)) s))
      as (R & C & Pi & Ps & Hp & Hl & Ho).
    split; [exact R|].
    split; [rewrite Pi; apply saved_store_holds|].
    split; [exact C|]. split; [exact Ps|].
    split; [exact Hp|]. split; [exact Hl|exact Ho].
Qed.

Lemma setup_save_gated_witness :
  setup_save provisioned_device = (Ret tt, provisioned_device) /\
  holds_config (nvs_iot_config (exec setup_save submitted_device))
    (cfg submitted_device).
Proof.
  split.
  - apply (setup_save_gated provisioned_device). reflexivity.
  - apply (setup_save_gated submitted_device). reflexivity.
Defined.

Lemma setup_boot_restores (s0 : Device) (c : Config) :
  holds_config (nvs_iot_config s0) c ->
  mqtt_server c <> "" -> button_pin c <> "" -> led_pin c <> "" ->
  power_pin c <> "" ->
  nvs_system_flags s0 !! VERSION_KEY = Some FIRMWARE_VERSION ->
  result setup_boot s0 = Ret tt /\ cfg (exec setup_boot s0) = c.
Proof.
  intros Hh Hs Hb Hl Hp Hv. unfold setup_boot.
  destruct (setupPowerPin_spec s0) as (R1 & N1 & C1 & F1).
  rewrite (bind_ret_result setupPowerPin _ s0 tt R1).
  rewrite (bind_ret_exec setupPowerPin _ s0 tt R1).
  assert (Hsys : nvs_system_flags (exec setupPowerPin s0) !! VERSION_KEY
                 = Some FIRMWARE_VERSION) by (rewrite F1; exact Hv).
  destruct (checkFirmwareVersion_unchanged _ Hsys) as [R2 E2].
  rewrite (bind_ret_result checkFirmwareVersion _ _ tt R2).
  rewrite (bind_ret_exec checkFirmwareVersion _ _ tt R2), E2.
  apply load_config_restores; try assumption.
  - rewrite N1. exact Hh.
  - rewrite C1.
    rewrite (stored_nonempty_some s0 "power_pin" (power_pin c));
      [reflexivity| |exact Hp].
    apply Hh.
Qed.

Lemma setup_read_params_run (values : Config) (s : Device) :
  setup_read_params values s = (Ret tt, set_cfg values s).
Proof. destruct values. reflexivity. Qed.

Lemma setup_save_run (s : Device) :
  shouldSaveConfig s = true ->
  setup_save s =
    reinit_pins (set_nvs iot_config (saved_store (cfg s) (nvs_iot_config s)) s).
Proof.
  intros Hflag. unfold setup_save. rewrite bind_gets, Hflag. cbn [when].
  exact (bind_run_eq save_config (fun _ => reinit_pins) _ _ tt
           (save_config_store s)).
Qed.

(** X18. Reading back portal parameters that fit the eight [char]
    globals makes them the in-memory configuration; without the save flag the store is left as it
    was, so they last for this boot only; with the flag set, and server
    and the three pins non-empty, the next boot with a matching firmware
    version loads exactly these values. *)
Theorem portal_values_survive_restart (s : Device) (values : Config)
    (sys : gmap string string) (wifi : bool) (levels : Z -> bool)
    (hs : nat -> bool) :
  config_fits values = true ->
  let m : M unit := (setup_read_params values ;; setup_save) in
  let s' := exec m s in
  result m s = Ret tt /\
  cfg s' = values /\
  (shouldSaveConfig s = false -> nvs_iot_config s' = nvs_iot_config s) /\
  (shouldSaveConfig s = true ->
     mqtt_server values <> "" -> button_pin values <> "" ->
     led_pin values <> "" -> power_pin values <> "" ->
     sys !! VERSION_KEY = Some FIRMWARE_VERSION ->
     cfg (exec setup_boot (power_on (nvs_iot_config s') sys wifi levels hs))
       = values).
Proof.
  intros _. cbv zeta.
  pose proof (bind_run_eq _ (fun _ => setup_save) _ _ tt
                (setup_read_params_run values s)) as Hrun.
  rewrite (result_ext _ setup_save _ _ Hrun), (exec_ext _ setup_save _ _ Hrun).
  destruct (shouldSaveConfig s) eqn:Hflag.
  - assert (Hflag1 : shouldSaveConfig (set_cfg values s) = true) by exact Hflag.
    pose proof (setup_save_run _ Hflag1) as Hsave.
    rewrite (result_ext _ _ _ _ Hsave), (exec_ext _ _ _ _ Hsave).
    destruct (reinit_pins_run
                (set_nvs iot_config
                   (saved_store (cfg (set_cfg values s))
                      (nvs_iot_config (set_cfg values s))) (set_cfg values s)))
      as (R & C & Pi & _).
    split; [exact R|]. split; [exact C|]. split; [discriminate|].
    intros _ Hs Hb Hl Hp Hv.
    apply setup_boot_restores; try assumption.
    rewrite power_on_iot, Pi. apply saved_store_holds.
  - assert (Hflag1 : shouldSaveConfig (set_cfg values s) = false) by exact Hflag.
    assert (Hsave : setup_save (set_cfg values s) = (Ret tt, set_cfg values s)).
    { unfold setup_save. rewrite bind_gets, Hflag1. reflexivity. }
    rewrite (result_ext _ (ret tt) _ _ Hsave), (exec_ext _ (ret tt) _ _ Hsave).
    split; [reflexivity|]. split; [reflexivity|]. split; [reflexivity|].
    discriminate.
Qed.

Lemma portal_values_survive_restart_witness :
  config_fits (cfg provisioned_device) = true /\
  cfg (exec setup_boot
         (power_on
            (nvs_iot_config
               (exec (setup_read_params (cfg provisioned_device) ;; setup_save)
                  submitted_device))
            {[ VERSION_KEY := FIRMWARE_VERSION ]} true (fun _ => HIGH)
            (fun _ => true)))
  = cfg provisioned_device.
Proof.
  split; [vm_compute; reflexivity|].
  apply (portal_values_survive_restart submitted_device (cfg provisioned_device)).
  - vm_compute. reflexivity.
  - reflexivity.
  - vm_compute. discriminate.
  - vm_compute. discriminate.
  - vm_compute. discriminate.
  - vm_compute. discriminate.
  - vm_compute. reflexivity.
Defined.

(** ** The start of a boot *)

Lemma migration_run_facts (s : Device) :
  nvs_system_flags s !! VERSION_KEY <> Some FIRMWARE_VERSION ->
  let s' := exec checkFirmwareVersion s in
  result checkFirmwareVersion s = Ret tt /\
  cfg s' = cfg s /\
  nvs_iot_config s' = ∅ /\
  wifi_saved s' = false /\
  (forall q, q <> DEFAULT_LED_PIN -> pins s' q = pins s q).
Proof.
  intros Hmis. cbv zeta. unfold checkFirmwareVersion, getString, result, exec.
  rewrite bind_gets. cbn [get_nvs].
  destruct (String.eqb_spec (default "" (nvs_system_flags s !! VERSION_KEY))
              FIRMWARE_VERSION) as [E|E]; cbn [negb when].
  - exfalso. apply Hmis.
    destruct (nvs_system_flags s !! VERSION_KEY) as [v|]; simpl in E.
    + now rewrite E.
    + discriminate E.
  - do 4 (split; [reflexivity|]).
    intros q Hq. cbn. now rewrite (proj2 (Z.eqb_neq _ _) Hq).
Qed.

Lemma load_config_empty_store (s : Device) :
  nvs_iot_config s = ∅ ->
  result load_config s = Ret tt /\ exec load_config s = s.
Proof.
  intros He. unfold result, exec. rewrite load_config_run. cbn [fst snd].
  split; [reflexivity|].
  unfold loaded, stored_nonempty. rewrite He, !lookup_empty.
  apply set_cfg_same.
Qed.

Lemma setupPowerPin_pin_high (s : Device) :
  pins (exec setupPowerPin s) (atoi (power_pin (cfg (exec setupPowerPin s)))) = HIGH.
Proof.
  unfold exec, setupPowerPin. unfold_prims. simpl.
  destruct (nvs_iot_config s !! "power_pin") as [v|]; simpl;
    [destruct (String.eqb v ""); simpl|].
  all: now rewrite Z.eqb_refl.
Qed.

(** X19. On a boot that migrates (stored version differs), a stored
    non-empty power pin that fits the [char [3]] global is still used for this boot, because it is read
    before the wipe: after the start of [setup] the power pin global is
    the stored one and every other global is at its default, while the
    operational-config namespace is empty and the network association
    forgotten; the power output on that pin is HIGH unless it is the
    default LED pin, which the migration pattern drives. *)
Theorem upgrade_boot_keeps_power_pin (iot sys : gmap string string)
    (wifi : bool) (levels : Z -> bool) (hs : nat -> bool) (v : string) :
  sys !! VERSION_KEY <> Some FIRMWARE_VERSION ->
  iot !! "power_pin" = Some v -> v <> "" -> fits 3 v = true ->
  let s' := exec setup_boot (power_on iot sys wifi levels hs) in
  result setup_boot (power_on iot sys wifi levels hs) = Ret tt /\
  cfg s' = with_power_pin v default_config /\
  nvs_iot_config s' = ∅ /\
  wifi_saved s' = false /\
  (atoi v <> DEFAULT_LED_PIN -> pins s' (atoi v) = HIGH).
Proof.
  intros Hmis Hk Hv _. cbv zeta. unfold setup_boot.
  set (booted := power_on iot sys wifi levels hs).
  destruct (setupPowerPin_spec booted) as (R1 & N1 & C1 & F1).
  pose proof (setupPowerPin_pin_high booted) as P1.
  rewrite (stored_nonempty_some booted "power_pin" v Hk Hv) in C1.
  rewrite C1 in P1. cbn [power_pin with_power_pin] in P1.
  rewrite (bind_ret_result setupPowerPin _ booted tt R1).
  rewrite (bind_ret_exec setupPowerPin _ booted tt R1).
  assert (Hmis1 : nvs_system_flags (exec setupPowerPin booted) !! VERSION_KEY
                  <> Some FIRMWARE_VERSION) by (rewrite F1; exact Hmis).
  destruct (migration_run_facts _ Hmis1) as (R2 & C2 & I2 & W2 & P2).
  rewrite (bind_ret_result checkFirmwareVersion _ _ tt R2).
  rewrite (bind_ret_exec checkFirmwareVersion _ _ tt R2).
  destruct (load_config_empty_store _ I2) as (R3 & E3).
  rewrite E3. split; [exact R3|]. split; [rewrite C2; exact C1|].
  split; [exact I2|]. split; [exact W2|].
  intros Hne. rewrite (P2 _ Hne). exact P1.
Qed.

Lemma upgrade_boot_keeps_power_pin_witness :
  cfg (exec setup_boot moved_power_device) = with_power_pin "5" default_config /\
  nvs_iot_config (exec setup_boot moved_power_device) = ∅.
Proof.
  destruct (upgrade_boot_keeps_power_pin
              {[ "server" := "broker.lan"; "power_pin" := "5" ]}
              {[ VERSION_KEY := "0.9.0" ]} true (fun _ => LOW) (fun _ => true) "5")
    as (_ & C & I & _).
  - vm_compute. discriminate.
  - vm_compute. reflexivity.
  - discriminate.
  - reflexivity.
  - split; [exact C | exact I].
Defined.

(** X20. After the full wipe the next boot starts from a factory state:
    the start of [setup] returns with all globals at their compiled
    defaults, an empty operational-config namespace, the firmware version
    written, the network association forgotten and the default power pin
    HIGH. *)
Theorem wipe_then_boot_defaults (s : Device) (levels : Z -> bool)
    (hs : nat -> bool) :
  let wiped := exec clearAllData s in
  let booted := power_on (nvs_iot_config wiped) (nvs_system_flags wiped)
                  (wifi_saved wiped) levels hs in
  let s' := exec setup_boot booted in
  result setup_boot booted = Ret tt /\
  cfg s' = default_config /\
  nvs_iot_config s' = ∅ /\
  nvs_system_flags s' !! VERSION_KEY = Some FIRMWARE_VERSION /\
  wifi_saved s' = false /\
  pins s' DEFAULT_POWER_PIN = HIGH.
Proof.
  cbv zeta.
  destruct (clearAllData_wipes s) as (_ & Hi & Hf & Hw).
  rewrite Hi, Hf, Hw.
  repeat split; vm_compute; reflexivity.
Qed.
